(** * Top2000CMC: the rate-limited price collector and the two-mode sheet sync

    A shallow embedding of [main.py].  The program talks to three outside
    parties: the price feed (HTTP), the spreadsheet tab and the local cache
    file.  The feed is modelled as the list of answers it gives to the
    successive requests of one run, the tab and the file as explicit state;
    every function returns what it computed together with the events it
    caused and the answers it has not consumed. *)

From Stdlib Require QArith.
From stdpp Require Import gmap strings list.

Open Scope string_scope.
Open Scope list_scope.
Open Scope nat_scope.

(** ** JSON values, as [resp.json()] and [json.load] produce them *)

#[warnings="-register-all"]
Inductive json : Type :=
| JNull
| JBool (b : bool)
| JNum (q : QArith_base.Q)
| JStr (s : string)
| JList (l : list json)
| JDict (kv : list (string * json)).   (* a parsed object: keys are unique *)

(** Exceptions the program does not catch at the place they arise. *)
Inductive exn : Type := TypeError | KeyError | AttributeError | APIError.

Inductive result (A : Type) : Type :=
| Ok (a : A)
| Raise (e : exn).
Arguments Ok {A} a.
Arguments Raise {A} e.

Definition bind {A B} (r : result A) (k : A -> result B) : result B :=
  match r with
  | Ok a => k a
  | Raise e => Raise e
  end.

Notation "'let!' x ':=' r 'in' k" := (bind r (fun x => k))
  (at level 10, x name, r at level 100, k at level 200).

(** *** The Python primitives the program applies to JSON values *)

(** [len(v)]: [None] stands for the TypeError of a value without a length. *)
Definition py_len (v : json) : option nat :=
  match v with
  | JList l => Some (length l)
  | JDict kv => Some (length kv)
  | JStr s => Some (String.length s)
  | JNull | JBool _ | JNum _ => None
  end.

Fixpoint assoc (k : string) (kv : list (string * json)) : option json :=
  match kv with
  | [] => None
  | (k', v) :: kv' => if decide (k' = k) then Some v else assoc k kv'
  end.

(** [c[k]] for a string key [k]. *)
Definition py_getitem (c : json) (k : string) : result json :=
  match c with
  | JDict kv =>
      match assoc k kv with
      | Some v => Ok v
      | None => Raise KeyError
      end
  | _ => Raise TypeError
  end.

(** [for c in v]: the elements the iteration yields. *)
Definition py_iter (v : json) : result (list json) :=
  match v with
  | JList l => Ok l
  | JDict kv => Ok (map (fun p => JStr (fst p)) kv)
  | JStr s => Ok (map (fun a => JStr (String a EmptyString)) (String.list_ascii_of_string s))
  | JNull | JBool _ | JNum _ => Raise TypeError
  end.

(** [",".join(chunk)]: every element has to be a [str]. *)
Fixpoint py_strs (l : list json) : result (list string) :=
  match l with
  | [] => Ok []
  | JStr s :: l' => let! ss := py_strs l' in Ok (s :: ss)
  | _ :: _ => Raise TypeError
  end.

Definition py_join (sep : string) (l : list json) : result string :=
  let! ss := py_strs l in Ok (String.concat sep ss).

(** Lists and objects are unhashable: they cannot be dictionary keys. *)
Definition py_hashable (v : json) : bool :=
  match v with
  | JList _ | JDict _ => false
  | _ => true
  end.

(** ** The price feed *)

(** What one [requests.get] followed by [raise_for_status] and [json()]
    comes to.  [RequestFailed] is any RequestException that is not an
    HTTPError: no connection, a timeout, a body that is not JSON. *)
Inductive response : Type :=
| RequestFailed
| HttpError (code : nat)   (* raise_for_status raised HTTPError with that status *)
| Body (data : json).      (* status fine, body parsed *)

(** A range in A1 notation, columns counted from 1: [C2:C5] is
    [A1Range 3 2 3 5]. *)

Inductive a1range : Type :=
| A1Range (col1 : nat) (row1 : nat) (col2 : nat) (row2 : nat).

(** What a run does to the outside, in the order it does it. *)
Inductive event : Type :=
| GetPage (page : nat)                   (* ranked page request *)
| GetIds (ids : string)                  (* filter-by-id request *)
| Sleep (secs : nat)
| AddWorksheet (rows cols : nat)
| ReadA1
| ColValues (col : nat)
| Update (values : list (list json)) (range : a1range)
| LoadFrozen
| SaveFrozen (ids : list json).

Inductive outcome (A : Type) : Type :=
| Done (a : A)          (* the call returned [a] *)
| Raised (e : exn)      (* an exception left the call *)
| Waiting.              (* the scripted answers ran out inside a retry loop *)
Arguments Done {A} a.
Arguments Raised {A} e.
Arguments Waiting {A}.

Record run (A : Type) : Type := Run {
  outcome_of : outcome A;
  trace : list event;
  unread : list response
}.
Arguments Run {A} _ _ _.
Arguments outcome_of {A} _.
Arguments trace {A} _.
Arguments unread {A} _.

Definition after {A} (evs : list event) (r : run A) : run A :=
  Run (outcome_of r) (evs ++ trace r) (unread r).

Record coin : Type := Coin {
  coin_id : json;
  coin_symbol : string;
  coin_price : json
}.

Section Program.

(** The module-level constants of [main.py] (250 and 2000 there, see
    [Source] below), and two behaviours of what the program builds on:
    [str.upper], and the text a cell shows once a value has been written
    over the text it showed.  [PER_PAGE] is taken positive wherever that
    matters: with 0 the module does not load, [PAGES] dividing by it. *)
Variable PER_PAGE : nat.
Variable TOTAL_COINS : nat.
Variable str_upper : string -> string.
Variable store_cell : json -> string -> string.

Definition PAGES : nat := TOTAL_COINS / PER_PAGE.

(** *** fetch_top_coins_with_price *)

Inductive page_reply : Type :=
| Accepted (data : list json)
| Fatal.

(** The [while True] loop of one page (lines 75-103): one answer is consumed
    per turn.  A list of at least [PER_PAGE] records leaves the loop, a
    status other than 429 leaves the function, everything else the two
    [except] clauses catch sleeps 60 seconds and asks again. *)
Fixpoint request_page (page : nat) (feed : list response) : run page_reply :=
  match feed with
  | [] => Run Waiting [] []
  | r :: feed' =>
      let retry := after [GetPage page; Sleep 60] (request_page page feed') in
      match r with
      | RequestFailed => retry
      | HttpError code =>
          if decide (code = 429) then retry
          else Run (Done Fatal) [GetPage page] feed'
      | Body data =>
          match data with
          | JList l =>
              if decide (length l < PER_PAGE) then retry
              else Run (Done (Accepted l)) [GetPage page] feed'
          | _ =>
              (* the ValueError message is built with len(data) *)
              match py_len data with
              | Some _ => retry
              | None => Run (Raised TypeError) [GetPage page] feed'
              end
          end
      end
  end.

(** [v.upper()] *)
Definition py_upper (v : json) : result string :=
  match v with
  | JStr s => Ok (str_upper s)
  | _ => Raise AttributeError
  end.

(** The dictionary built from one record (lines 107-111). *)
Definition coin_of (c : json) : result coin :=
  let! i := py_getitem c "id" in
  let! s := py_getitem c "symbol" in
  let! u := py_upper s in
  let! p := py_getitem c "current_price" in
  Ok (Coin i u p).

Fixpoint coins_of (data : list json) : result (list coin) :=
  match data with
  | [] => Ok []
  | c :: data' => let! x := coin_of c in let! xs := coins_of data' in Ok (x :: xs)
  end.

(** The [for page in range(1, PAGES + 1)] loop (lines 74-115), [items] being
    what has been appended so far.  The return after the last page cuts
    [items] to [TOTAL_COINS]; the return on a fatal status does not. *)
Fixpoint collect_pages (pages : list nat) (items : list coin)
    (feed : list response) : run (list coin) :=
  match pages with
  | [] => Run (Done (take TOTAL_COINS items)) [] feed
  | page :: pages' =>
      let r := request_page page feed in
      match outcome_of r with
      | Done (Accepted data) =>
          match coins_of data with
          | Ok new =>
              after (trace r ++ [Sleep 20])
                (collect_pages pages' (items ++ new) (unread r))
          | Raise e => Run (Raised e) (trace r) (unread r)
          end
      | Done Fatal => Run (Done items) (trace r) (unread r)
      | Raised e => Run (Raised e) (trace r) (unread r)
      | Waiting => Run Waiting (trace r) (unread r)
      end
  end.

Definition fetch_top_coins_with_price (feed : list response) : run (list coin) :=
  collect_pages (seq 1 PAGES) [] feed.

(** *** update_prices_only *)

(** The [while True] loop of one batch (lines 156-183); [ids] is the
    comma-joined chunk.  A status other than 429 leaves the loop with
    [data = []]. *)
Fixpoint request_batch (ids : string) (feed : list response) : run json :=
  match feed with
  | [] => Run Waiting [] []
  | r :: feed' =>
      let retry := after [GetIds ids; Sleep 60] (request_batch ids feed') in
      match r with
      | RequestFailed => retry
      | HttpError code =>
          if decide (code = 429) then retry
          else Run (Done (JList [])) [GetIds ids] feed'
      | Body data => Run (Done data) [GetIds ids] feed'
      end
  end.

(** One turn of the comprehension [{c["id"]: c["current_price"] for c in data}].
    Keys that are not strings are left out of the map: the only lookups are
    by the [str] elements of the chunk, which no such key equals. *)
Definition price_entry (m : gmap string json) (c : json) : result (gmap string json) :=
  let! k := py_getitem c "id" in
  let! v := py_getitem c "current_price" in
  if py_hashable k then
    Ok (match k with JStr s => <[s:=v]> m | _ => m end)
  else Raise TypeError.

Fixpoint price_entries (m : gmap string json) (cs : list json) : result (gmap string json) :=
  match cs with
  | [] => Ok m
  | c :: cs' => let! m' := price_entry m c in price_entries m' cs'
  end.

Definition price_map (data : json) : result (gmap string json) :=
  let! cs := py_iter data in price_entries ∅ cs.

(** [price_map.get(coin_id, "")] *)
Definition price_get (m : gmap string json) (coin_id : json) : json :=
  match coin_id with
  | JStr s => default (JStr "") (m !! s)
  | _ => JStr ""
  end.

(** [range(0, total, PER_PAGE)] *)
Definition batch_starts (total : nat) : list nat :=
  map (fun k => k * PER_PAGE) (seq 0 ((total + PER_PAGE - 1) / PER_PAGE)).

(** The [for i in range(0, total, PER_PAGE)] loop (lines 154-189), [prices]
    being the rows appended so far. *)
Fixpoint refresh_batches (starts : list nat) (frozen_ids : list json)
    (prices : list (list json)) (feed : list response) : run (list (list json)) :=
  match starts with
  | [] => Run (Done prices) [] feed
  | i :: starts' =>
      let chunk := take PER_PAGE (drop i frozen_ids) in
      match py_join "," chunk with
      | Raise e => Run (Raised e) [] feed
      | Ok ids =>
          let r := request_batch ids feed in
          match outcome_of r with
          | Done data =>
              match price_map data with
              | Ok m =>
                  after (trace r ++ [Sleep 10])
                    (refresh_batches starts' frozen_ids
                       (prices ++ map (fun coin_id => [price_get m coin_id]) chunk)
                       (unread r))
              | Raise e => Run (Raised e) (trace r) (unread r)
              end
          | Raised e => Run (Raised e) (trace r) (unread r)
          | Waiting => Run Waiting (trace r) (unread r)
          end
      end
  end.

(** [update_prices_only] up to the write: the [prices] it has built. *)
Definition refresh_prices (frozen_ids : list json) (feed : list response)
    : run (list (list json)) :=
  refresh_batches (batch_starts (length frozen_ids)) frozen_ids [] feed.

(** ** The spreadsheet tab and the cache file *)

(** A tab is a grid of cell texts, rows and columns counted from 1, the
    empty text standing for an empty cell. *)
Record worksheet : Type := Worksheet {
  row_count : nat;
  col_count : nat;
  cells : nat -> nat -> string
}.

Definition in_range (rg : a1range) (r c : nat) : bool :=
  match rg with
  | A1Range c1 r1 c2 r2 =>
      (r1 <=? r) && (r <=? r2) && (c1 <=? c) && (c <=? c2)
  end.

(** [wks.update(values, range_name)]: the values are laid out from the upper
    left corner of the range, each changing the text of its cell; a range
    that reaches outside the grid is refused (APIError) and changes
    nothing. *)
Definition wks_update (values : list (list json)) (rg : a1range) (s : worksheet)
    : result worksheet :=
  match rg with
  | A1Range c1 r1 c2 r2 =>
      if decide (r2 <= row_count s ∧ c2 <= col_count s) then
        Ok (Worksheet (row_count s) (col_count s)
              (fun r c =>
                 if in_range rg r c then
                   match values !! (r - r1) with
                   | Some row =>
                       match row !! (c - c1) with
                       | Some v => store_cell v (cells s r c)
                       | None => cells s r c
                       end
                   | None => cells s r c
                   end
                 else cells s r c))
      else Raise APIError
  end.

(** A list of cell texts without the empty ones at its end. *)
Fixpoint drop_trailing_empty (l : list string) : list string :=
  match l with
  | [] => []
  | x :: l' =>
      match drop_trailing_empty l' with
      | [] => if decide (x = "") then [] else [x]
      | t => x :: t
      end
  end.

(** [wks.col_values(col)]: the column down to its last filled cell. *)
Definition col_values (col : nat) (s : worksheet) : list string :=
  drop_trailing_empty (map (fun r => cells s r col) (seq 1 (row_count s))).

Record world : Type := World {
  sheet : option worksheet;             (* the tab WORKSHEET_NAME, if there is one *)
  frozen_file : option (option json)    (* FROZEN_FILE: missing, unreadable, or its parsed content *)
}.

(** What can go wrong around the program in one run and is caught by it.
    A save can fail before the file is opened, which leaves the file alone,
    or after: opening with mode "w" has then emptied the file and what the
    dump got to write, if anything, does not parse. *)
Record faults : Type := Faults {
  acell_raises : bool;     (* reading A1 raises *)
  save_raises : bool;      (* the save raises *)
  save_truncates : bool    (* it does so after FROZEN_FILE has been opened *)
}.

(** Lines 45-55: the cached list when the file parses to a list of at least
    [TOTAL_COINS] elements, cut to [TOTAL_COINS]; [None] in every other
    case. *)
Definition load_frozen_coins (w : world) : option (list json) :=
  match frozen_file w with
  | Some (Some (JList l)) =>
      if decide (TOTAL_COINS <= length l) then Some (take TOTAL_COINS l) else None
  | _ => None
  end.

(** Lines 57-63: the file is overwritten.  A failure is logged and goes no
    further; it leaves the file as it was when the file could not be
    opened, and unreadable when the dump broke off. *)
Definition save_frozen_coins (f : faults) (ids : list json) (w : world) : world :=
  if save_raises f then
    if save_truncates f then World (sheet w) (Some None) else w
  else World (sheet w) (Some (Some (JList ids))).

(** Lines 118-129: the tab, created empty when the spreadsheet has none. *)
Definition ensure_worksheet (w : world) : worksheet * list event :=
  match sheet w with
  | Some s => (s, [])
  | None =>
      (Worksheet (TOTAL_COINS + 1) 3 (fun _ _ => ""),
       [AddWorksheet (TOTAL_COINS + 1) 3])
  end.

Definition header_row : list json := [JStr "ID"; JStr "Ticker"; JStr "Price (USD)"].

Definition coin_row (c : coin) : list json :=
  [coin_id c; JStr (coin_symbol c); coin_price c].

Definition full_table (coins : list coin) : list (list json) :=
  header_row :: map coin_row coins.

Definition full_range (coins : list coin) : a1range :=
  A1Range 1 1 3 (length (full_table coins)).

(** Lines 132-144: header and rows go to [A1:C(last_row)]. *)
Definition write_full_table (wks : worksheet) (coins : list coin) : result worksheet :=
  wks_update (full_table coins) (full_range coins) wks.

(** [C2:C(total+1)] *)
Definition price_range (total : nat) : a1range := A1Range 3 2 3 (total + 1).

(** A run of the sync: how it ended, the world it leaves, its events and
    the answers of the feed it has not read. *)
Record sync_run : Type := SyncRun {
  sync_outcome : outcome unit;
  sync_world : world;
  sync_trace : list event;
  sync_unread : list response
}.

(** Lines 147-194: the prices are built, then written to
    [C2:C(total+1)] with [total = len(frozen_ids)]. *)
Definition update_prices_only (w : world) (wks : worksheet) (frozen_ids : list json)
    (feed : list response) : sync_run :=
  let total := length frozen_ids in
  let r := refresh_prices frozen_ids feed in
  match outcome_of r with
  | Done prices =>
      let tr := trace r ++ [Update prices (price_range total)] in
      match wks_update prices (price_range total) wks with
      | Ok wks' => SyncRun (Done tt) (World (Some wks') (frozen_file w)) tr (unread r)
      | Raise e => SyncRun (Raised e) w tr (unread r)
      end
  | Raised e => SyncRun (Raised e) w (trace r) (unread r)
  | Waiting => SyncRun Waiting w (trace r) (unread r)
  end.

(** *** sync_to_sheet *)

(** [header], [None] when the cell is empty or could not be read. *)
Definition read_header (f : faults) (wks : worksheet) : option string :=
  if acell_raises f then None
  else if decide (cells wks 1 1 = "") then None else Some (cells wks 1 1).

(** The branch [header != "ID"] (lines 207-215). *)
Definition first_load (f : faults) (w : world) (wks : worksheet)
    (feed : list response) : sync_run :=
  let r := fetch_top_coins_with_price feed in
  match outcome_of r with
  | Done coins =>
      match coins with
      | [] => SyncRun (Done tt) w (trace r) (unread r)
      | _ :: _ =>
          let tr := trace r ++ [Update (full_table coins) (full_range coins)] in
          match write_full_table wks coins with
          | Ok wks' =>
              let frozen_ids := map coin_id coins in
              SyncRun (Done tt)
                (save_frozen_coins f frozen_ids (World (Some wks') (frozen_file w)))
                (tr ++ [SaveFrozen frozen_ids]) (unread r)
          | Raise e => SyncRun (Raised e) w tr (unread r)
          end
      end
  | Raised e => SyncRun (Raised e) w (trace r) (unread r)
  | Waiting => SyncRun Waiting w (trace r) (unread r)
  end.

(** The ids a later run works with (lines 218-221): the cached list when
    there is one and it is not empty, otherwise
    [wks.col_values(1)[1:TOTAL_COINS + 1]]. *)
Definition frozen_ids_for (w : world) (wks : worksheet) : list json * list event :=
  match load_frozen_coins w with
  | Some ((_ :: _) as frozen_ids) => (frozen_ids, [LoadFrozen])
  | _ =>
      (map JStr (take TOTAL_COINS (drop 1 (col_values 1 wks))),
       [LoadFrozen; ColValues 1])
  end.

(** The branch [header == "ID"] (lines 217-222). *)
Definition later_load (w : world) (wks : worksheet) (feed : list response) : sync_run :=
  let (frozen_ids, evs) := frozen_ids_for w wks in
  let r := update_prices_only w wks frozen_ids feed in
  SyncRun (sync_outcome r) (sync_world r) (evs ++ sync_trace r) (sync_unread r).

(** Lines 197-222.  The tab is looked up or created first; the header is
    [None] when reading A1 raises. *)
Definition sync_to_sheet (f : faults) (w : world) (feed : list response) : sync_run :=
  let (wks, made) := ensure_worksheet w in
  let w1 := World (Some wks) (frozen_file w) in
  let r :=
    if decide (read_header f wks = Some "ID") then later_load w1 wks feed
    else first_load f w1 wks feed in
  SyncRun (sync_outcome r) (sync_world r) (made ++ ReadA1 :: sync_trace r) (sync_unread r).

(** ** Kinds of events *)

Definition page_event (ev : event) : Prop :=
  match ev with
  | GetPage _ | Sleep _ => True
  | _ => False
  end.

Definition batch_event (ev : event) : Prop :=
  match ev with
  | GetIds _ | Sleep _ => True
  | _ => False
  end.

(** What a run that only refreshes prices may do: no ranked page request,
    no new tab, no cache write, and no write to the tab but to a range
    [C2:C(n+1)]. *)
Definition refresh_event (ev : event) : Prop :=
  match ev with
  | GetPage _ | AddWorksheet _ _ | SaveFrozen _ => False
  | Update _ rg => exists n, rg = price_range n
  | _ => True
  end.

(** What a run that writes nothing may do. *)
Definition silent_event (ev : event) : Prop :=
  match ev with
  | Update _ _ | SaveFrozen _ => False
  | _ => True
  end.


(** ** Scripted feeds

    A run that gets through a page (a batch) has seen, for that page, some
    answers that made it wait and ask again, then one answer it went on
    with.  Scripts spell such feeds out. *)

(** The answers after which the page loop sleeps and asks again. *)
Definition page_retried (r : response) : bool :=
  match r with
  | RequestFailed => true
  | HttpError code => bool_decide (code = 429)
  | Body (JList l) => bool_decide (length l < PER_PAGE)
  | Body d => bool_decide (is_Some (py_len d))
  end.

Record page_script : Type := PageScript {
  retried : list response;
  records : list json
}.

Definition page_feed (e : page_script) : list response :=
  retried e ++ [Body (JList (records e))].

Definition page_script_ok (e : page_script) : Prop :=
  Forall (fun r => page_retried r = true) (retried e) ∧ PER_PAGE <= length (records e).

Definition pages_feed (script : list page_script) : list response :=
  concat (map page_feed script).

Definition pages_records (script : list page_script) : list json :=
  concat (map records script).

Definition backoff (ev : event) (n : nat) : list event :=
  concat (replicate n [ev; Sleep 60]).

Fixpoint pages_trace (page : nat) (script : list page_script) : list event :=
  match script with
  | [] => []
  | e :: script' =>
      backoff (GetPage page) (length (retried e))
        ++ [GetPage page; Sleep 20] ++ pages_trace (S page) script'
  end.

(** The answers after which the batch loop sleeps and asks again, and the
    [data] the other answers leave the loop with. *)
Definition batch_retried (r : response) : bool :=
  match r with
  | RequestFailed => true
  | HttpError code => bool_decide (code = 429)
  | Body _ => false
  end.

Definition batch_data (r : response) : option json :=
  match r with
  | RequestFailed => None
  | HttpError code => if decide (code = 429) then None else Some (JList [])
  | Body data => Some data
  end.

Record batch_script : Type := BatchScript {
  b_retried : list response;
  b_final : response
}.

Definition batch_feed (e : batch_script) : list response :=
  b_retried e ++ [b_final e].

Definition batches_feed (script : list batch_script) : list response :=
  concat (map batch_feed script).

(** The batch is answered in the end, with something the price map can be
    built from. *)
Definition batch_script_ok (e : batch_script) : Prop :=
  Forall (fun r => batch_retried r = true) (b_retried e)
  ∧ exists data m, batch_data (b_final e) = Some data ∧ price_map data = Ok m.

(** The price an answer holds for an id: that of the last of its records
    that carries this id. *)
Definition record_price (c : json) (id : string) : option json :=
  match py_getitem c "id", py_getitem c "current_price" with
  | Ok (JStr s), Ok p => if decide (s = id) then Some p else None
  | _, _ => None
  end.

Fixpoint returned_price (cs : list json) (id : string) : option json :=
  match cs with
  | [] => None
  | c :: cs' =>
      match returned_price cs' id with
      | Some p => Some p
      | None => record_price c id
      end
  end.

(** What the answer a batch went on with holds for an id, the empty string
    standing in when it holds nothing. *)
Definition batch_price (e : batch_script) (id : string) : json :=
  match batch_data (b_final e) with
  | Some data =>
      match py_iter data with
      | Ok cs => default (JStr "") (returned_price cs id)
      | Raise _ => JStr ""
      end
  | None => JStr ""
  end.

(** The rows a scripted refresh is expected to produce: the ids are cut
    into consecutive batches, each priced from the answer to its batch. *)
Fixpoint rows_of (ids : list string) (script : list batch_script) : list (list json) :=
  match script with
  | [] => []
  | e :: script' =>
      map (fun id => [batch_price e id]) (take PER_PAGE ids)
        ++ rows_of (drop PER_PAGE ids) script'
  end.

(** The string id a record carries, if it carries one. *)
Definition record_key (c : json) : option string :=
  match py_getitem c "id" with
  | Ok (JStr s) => Some s
  | _ => None
  end.

(** The bodies the batch loop hands on and the price map cannot be built
    from: values that cannot be iterated, and objects and strings, whose
    elements are strings. *)
Definition unusable_body (data : json) : Prop :=
  match data with
  | JNull | JBool _ | JNum _ => True
  | JDict kv => kv <> []
  | JStr s => s <> ""
  | JList _ => False
  end.

(** A coin as the collector builds it from a record: id and price as the
    record has them, the symbol in upper case. *)
Definition built_from (c : json) (x : coin) : Prop :=
  py_getitem c "id" = Ok (coin_id x)
  ∧ (exists sym, py_getitem c "symbol" = Ok (JStr sym) ∧ coin_symbol x = str_upper sym)
  ∧ py_getitem c "current_price" = Ok (coin_price x).

End Program.

(** ** The constants of [main.py] and data for the examples *)

Module Source.
Definition PER_PAGE : nat := 250.
Definition TOTAL_COINS : nat := 2000.
End Source.

(** [str.upper] on the ASCII letters, other characters left as they are. *)
Definition ascii_upper (a : Ascii.ascii) : Ascii.ascii :=
  let n := Ascii.nat_of_ascii a in
  if (97 <=? n) && (n <=? 122) then Ascii.ascii_of_nat (n - 32) else a.

Fixpoint upper (s : string) : string :=
  match s with
  | EmptyString => EmptyString
  | String a s' => String (ascii_upper a) (upper s')
  end.

(** A store for the examples: a string is shown as it is, a null leaves the
    cell alone, any other value shows as a question mark. *)
Definition shown (v : json) (old : string) : string :=
  match v with
  | JStr s => s
  | JNull => old
  | _ => "?"
  end.

Definition record (id symbol : string) (price : json) : json :=
  JDict [("id", JStr id); ("symbol", JStr symbol); ("current_price", price)].

Definition bitcoin : json := record "bitcoin" "btc" (JNum (QArith_base.Qmake 65000 1)).
Definition ether : json := record "ethereum" "eth" (JNum (QArith_base.Qmake 3000 1)).
Definition tether : json := record "tether" "usdt" (JNum (QArith_base.Qmake 1 1)).

Definition bitcoin_coin : coin :=
  Coin (JStr "bitcoin") "BTC" (JNum (QArith_base.Qmake 65000 1)).

(** A feed that answers each of the eight page requests with the same 250
    records. *)
Definition same_page : list json := replicate 250 bitcoin.
Definition repeated_script : list page_script := replicate 8 (PageScript [] same_page).
Definition repeated_feed : list response := replicate 8 (Body (JList same_page)).

(** A feed whose first page holds 2001 records and whose second request is
    refused with status 500. *)
Definition oversized_feed : list response :=
  [Body (JList (replicate 2001 bitcoin)); HttpError 500].

Definition no_faults : faults := Faults false false false.
Definition unreadable_header : faults := Faults true false false.

(** A tab that a truncated first load has left: the header and three coins. *)
Definition three_coin_sheet : worksheet :=
  Worksheet 2001 3
    (fun r c =>
       match r, c with
       | 1, 1 => "ID" | 1, 2 => "Ticker" | 1, 3 => "Price (USD)"
       | 2, 1 => "bitcoin" | 2, 2 => "BTC"
       | 3, 1 => "ethereum" | 3, 2 => "ETH"
       | 4, 1 => "tether" | 4, 2 => "USDT"
       | _, _ => ""
       end).

Definition three_coin_world : world := World (Some three_coin_sheet) None.

(** No tab yet and no cache file. *)
Definition fresh_world : world := World None None.

Definition three_ids : list string := ["bitcoin"; "ethereum"; "tether"].

(** Two batches of a refresh with two ids a batch: the first is throttled
    once and then answered out of order, the second fails once and is then
    refused with status 500. *)
Definition two_batches : list batch_script :=
  [BatchScript [HttpError 429] (Body (JList [ether; bitcoin]));
   BatchScript [RequestFailed] (HttpError 500)].

(** Two pages of two records, the first after a failed request. *)
Definition two_pages : list page_script :=
  [PageScript [RequestFailed] [bitcoin; ether];
   PageScript [] [tether; record "solana" "sol" JNull]].

(** The coins of [two_pages]. *)
Definition four_coins : list coin :=
  [bitcoin_coin;
   Coin (JStr "ethereum") "ETH" (JNum (QArith_base.Qmake 3000 1));
   Coin (JStr "tether") "USDT" (JNum (QArith_base.Qmake 1 1));
   Coin (JStr "solana") "SOL" JNull].

(** Two pages that hold three records where two were asked for. *)
Definition wide_feed : list response :=
  [Body (JList [bitcoin; ether; tether]);
   Body (JList [record "solana" "sol" JNull; record "ripple" "xrp" JNull;
                record "cardano" "ada" JNull])].

Definition one_batch_feed : list response := [Body (JList [bitcoin; tether])].

(** A feed that answers the first page and refuses the second with status
    500. *)
Definition truncated_feed : list response := [Body (JList same_page); HttpError 500].

(** The tab that a first load of [four_coins] leaves on a fresh
    spreadsheet, with 4 coins wanted. *)
Definition loaded_sheet : worksheet :=
  match write_full_table shown (ensure_worksheet 4 fresh_world).1 four_coins with
  | Ok s => s
  | Raise _ => Worksheet 0 0 (fun _ _ => "")
  end.

(** The same pages and batches as above, answered at the first request. *)
Definition two_prompt_pages : list page_script :=
  [PageScript [] [bitcoin; ether];
   PageScript [] [tether; record "solana" "sol" JNull]].

Definition two_prompt_batches : list batch_script :=
  [BatchScript [] (Body (JList [ether; bitcoin]));
   BatchScript [] (HttpError 500)].

(** A record whose symbol is null. *)
Definition nameless : json :=
  JDict [("id", JStr "nameless"); ("symbol", JNull); ("current_price", JNull)].

(** An answer that lists bitcoin twice, with two prices, and its price map. *)
Definition repeating_answer : list json :=
  [bitcoin; ether; record "bitcoin" "btc" (JNum (QArith_base.Qmake 70000 1))].

Definition repeating_map : gmap string json :=
  match price_map (JList repeating_answer) with
  | Ok m => m
  | Raise _ => ∅
  end.

Definition pair_map : gmap string json :=
  match price_map (JList [bitcoin; ether]) with
  | Ok m => m
  | Raise _ => ∅
  end.

(** A tab with the header row and nothing else. *)
Definition header_sheet : worksheet :=
  Worksheet 5 3
    (fun r c =>
       match r, c with
       | 1, 1 => "ID" | 1, 2 => "Ticker" | 1, 3 => "Price (USD)"
       | _, _ => ""
       end).

Definition header_world : world := World (Some header_sheet) None.

Definition unwritable_cache : faults := Faults false true false.
Definition broken_dump : faults := Faults false true true.

(** * Properties *)

Section Properties.

Variable PER_PAGE : nat.
Variable TOTAL_COINS : nat.
Variable str_upper : string -> string.
Variable store_cell : json -> string -> string.

Lemma PAGES_eq : PAGES PER_PAGE TOTAL_COINS = TOTAL_COINS / PER_PAGE.
Proof. reflexivity. Qed.

Example PAGES_source : PAGES Source.PER_PAGE Source.TOTAL_COINS = 8.
Proof. reflexivity. Qed.

Local Abbreviation PAGES := (PAGES PER_PAGE TOTAL_COINS).
Local Abbreviation request_page := (request_page PER_PAGE).
Local Abbreviation coins_of := (coins_of str_upper).
Local Abbreviation collect_pages := (collect_pages PER_PAGE TOTAL_COINS str_upper).
Local Abbreviation fetch_top_coins_with_price :=
  (fetch_top_coins_with_price PER_PAGE TOTAL_COINS str_upper).
Local Abbreviation page_retried := (page_retried PER_PAGE).
Local Abbreviation page_script_ok := (page_script_ok PER_PAGE).

Lemma after_after {A} (e1 e2 : list event) (r : run A) :
  after e1 (after e2 r) = after (e1 ++ e2) r.
Proof. unfold after; simpl. by rewrite app_assoc. Qed.

Lemma after_nil {A} (r : run A) : after [] r = r.
Proof. by destruct r. Qed.

Lemma backoff_S ev n : backoff ev (S n) = [ev; Sleep 60] ++ backoff ev n.
Proof. reflexivity. Qed.

(** Any number of answers of the retried kind leaves the loop on the same
    page: it has slept 60 seconds after each and goes on with the rest of
    the feed. *)
Lemma request_page_retries page pre rest :
  Forall (fun r => page_retried r = true) pre ->
  request_page page (pre ++ rest)
  = after (backoff (GetPage page) (length pre)) (request_page page rest).
Proof.
  induction 1 as [|r pre Hr _ IH]; simpl.
  - by rewrite after_nil.
  - rewrite IH, after_after.
    destruct r as [|code|data]; simpl in Hr.
    + done.
    + case_decide; [done|]. by apply bool_decide_eq_true in Hr.
    + destruct data; simpl in *;
        try (apply bool_decide_eq_true in Hr; destruct Hr; discriminate);
        try done.
      case_decide; [done|]. by apply bool_decide_eq_true in Hr.
Qed.

Lemma request_page_accepts page l rest :
  PER_PAGE <= length l ->
  request_page page (Body (JList l) :: rest) = Run (Done (Accepted l)) [GetPage page] rest.
Proof. intros H; simpl. case_decide; [lia|done]. Qed.

Lemma request_page_fatal page code rest :
  code <> 429 ->
  request_page page (HttpError code :: rest) = Run (Done Fatal) [GetPage page] rest.
Proof. intros H; simpl. by case_decide. Qed.

Lemma coins_of_app a b :
  coins_of (a ++ b)
  = (let! x := coins_of a in let! y := coins_of b in Ok (x ++ y)).
Proof.
  induction a as [|c a IH]; simpl.
  - by destruct (coins_of b).
  - destruct (coin_of str_upper c); simpl; [|done].
    rewrite IH. destruct (coins_of a); simpl; [|done].
    by destruct (coins_of b).
Qed.

Lemma coins_of_app_inv a b cs :
  coins_of (a ++ b) = Ok cs ->
  exists ca cb, coins_of a = Ok ca ∧ coins_of b = Ok cb ∧ cs = ca ++ cb.
Proof.
  rewrite coins_of_app.
  destruct (coins_of a) as [ca|]; simpl; [|done].
  destruct (coins_of b) as [cb|]; simpl; [|done].
  intros [= <-]. eauto.
Qed.

Lemma coins_of_length l cs : coins_of l = Ok cs -> length cs = length l.
Proof.
  revert cs; induction l as [|c l IH]; simpl; intros cs.
  - by intros [= <-].
  - destruct (coin_of str_upper c); simpl; [|done].
    destruct (coins_of l) as [cl|]; simpl; [|done].
    intros [= <-]; simpl. by rewrite (IH cl).
Qed.

(** The page loop run on a feed that answers the next pages as scripted:
    their records are appended in order and the loop goes on with the
    pages that are left. *)
Lemma collect_pages_script script : forall page items cs later rest,
  Forall page_script_ok script ->
  coins_of (pages_records script) = Ok cs ->
  collect_pages (seq page (length script) ++ later) items (pages_feed script ++ rest)
  = after (pages_trace page script) (collect_pages later (items ++ cs) rest).
Proof.
  induction script as [|e script IH]; intros page items cs later rest Hok Hcs.
  - simpl in *. injection Hcs as <-. by rewrite app_nil_r, after_nil.
  - apply Forall_cons in Hok as [[Hpre Hlen] Hok].
    unfold pages_records in Hcs; simpl in Hcs.
    apply coins_of_app_inv in Hcs as (ca & cb & Ha & Hb & ->).
    change (pages_feed (e :: script)) with (page_feed e ++ pages_feed script).
    unfold page_feed. rewrite <- !app_assoc.
    change (seq page (length (e :: script)) ++ later)
      with (page :: (seq (S page) (length script) ++ later)).
    cbn [collect_pages].
    rewrite request_page_retries by done.
    cbn [app]. rewrite request_page_accepts by done.
    cbn [after outcome_of trace unread]. rewrite Ha.
    rewrite (IH (S page) (items ++ ca) cb later rest Hok Hb).
    rewrite after_after. cbn [pages_trace].
    by rewrite <- !app_assoc.
Qed.

Lemma pages_records_length script :
  Forall page_script_ok script ->
  length script * PER_PAGE <= length (pages_records script).
Proof.
  unfold pages_records.
  induction 1 as [|e script [_ He] _ IH]; simpl; [lia|].
  rewrite length_app. lia.
Qed.

Lemma pages_records_exact script :
  Forall (fun e => length (records e) = PER_PAGE) script ->
  length (pages_records script) = length script * PER_PAGE.
Proof.
  unfold pages_records.
  induction 1 as [|e script He _ IH]; simpl; [lia|].
  rewrite length_app. lia.
Qed.

(** A feed that answers every page as scripted makes the collector return
    the first [TOTAL_COINS] of the records it was given, in feed order. *)
Lemma fetch_script script cs rest :
  length script = PAGES ->
  Forall page_script_ok script ->
  coins_of (pages_records script) = Ok cs ->
  fetch_top_coins_with_price (pages_feed script ++ rest)
  = Run (Done (take TOTAL_COINS cs)) (pages_trace 1 script) rest.
Proof.
  intros Hn Hok Hcs. unfold fetch_top_coins_with_price.
  rewrite <- Hn, <- (app_nil_r (seq 1 _)).
  rewrite (collect_pages_script script 1 [] cs [] rest Hok Hcs).
  simpl. unfold after; simpl. by rewrite app_nil_r.
Qed.

Lemma backoff_events ev n x : x ∈ backoff ev n -> x = ev ∨ x = Sleep 60.
Proof.
  induction n as [|n IH]; [by intros ?%elem_of_nil|].
  rewrite backoff_S. intros [H|H]%elem_of_app; [|by apply IH].
  apply elem_of_cons in H as [->|H]; [by left|].
  apply list_elem_of_singleton in H. by right.
Qed.

Lemma pages_trace_pages script : forall page p,
  GetPage p ∈ pages_trace page script -> page <= p < page + length script.
Proof.
  induction script as [|e script IH]; intros page p; simpl.
  - by intros ?%elem_of_nil.
  - intros [H|H]%elem_of_app.
    + apply backoff_events in H as [[= ->]|[=]]. lia.
    + apply elem_of_cons in H as [[= ->]|H]; [lia|].
      apply elem_of_cons in H as [[=]|H].
      apply IH in H. lia.
Qed.

(** An accepted page never has fewer than [PER_PAGE] records, whatever the
    feed. *)
Lemma request_page_accepted_full page feed l :
  outcome_of (request_page page feed) = Done (Accepted l) -> PER_PAGE <= length l.
Proof.
  induction feed as [|r feed IH]; simpl; [done|].
  destruct r as [|code|data]; simpl; [done| |].
  - by case_decide.
  - destruct data; simpl; try done.
    case_decide; simpl; [done|]. intros [= <-]. lia.
Qed.

(** A payload that has no length is not retried: the TypeError raised while
    the error message is built leaves the loop. *)
Lemma request_page_unsized page d rest :
  py_len d = None ->
  request_page page (Body d :: rest) = Run (Raised TypeError) [GetPage page] rest.
Proof. by destruct d. Qed.

(** C8: during the full collection an HTTP error whose status is not 429
    ends the collection at once.  Whatever pages were completed before and
    however often the failing page had been retried before, the call returns
    the records of the completed pages (no exception), the failing request is
    the last event (no sleep, no retry, no later page) and the rest of the
    feed is left unread. *)
Theorem fatal_status_ends_collection script cs pre code rest :
  Forall page_script_ok script ->
  coins_of (pages_records script) = Ok cs ->
  length script < PAGES ->
  Forall (fun r => page_retried r = true) pre ->
  code <> 429 ->
  let page := S (length script) in
  let r := fetch_top_coins_with_price (pages_feed script ++ pre ++ HttpError code :: rest) in
  outcome_of r = Done cs
  ∧ trace r = pages_trace 1 script ++ backoff (GetPage page) (length pre) ++ [GetPage page]
  ∧ unread r = rest
  ∧ (forall p, GetPage p ∈ trace r -> p <= page).
Proof.
  intros Hok Hcs Hlt Hpre Hcode page r.
  assert (Hr : r = Run (Done cs)
            (pages_trace 1 script ++ backoff (GetPage page) (length pre) ++ [GetPage page])
            rest).
  { subst r. unfold fetch_top_coins_with_price.
    replace PAGES with (length script + S (PAGES - page)) by (subst page; lia).
    rewrite seq_app.
    rewrite (collect_pages_script script 1 [] cs _ _ Hok Hcs).
    change (1 + length script) with page.
    change (seq page (S (PAGES - page))) with (page :: seq (S page) (PAGES - page)).
    cbn [collect_pages].
    rewrite request_page_retries by done.
    rewrite request_page_fatal by done.
    cbn [after outcome_of trace unread app]. done. }
  rewrite Hr; cbn [outcome_of trace unread]. repeat split.
  intros p [H|H]%elem_of_app.
  - apply pages_trace_pages in H. subst page. lia.
  - apply elem_of_app in H as [H|H].
    + apply backoff_events in H as [[= ->]|[=]]. lia.
    + apply list_elem_of_singleton in H as [= ->]. lia.
Qed.

Lemma NoDup_take_ids (cs : list coin) n :
  NoDup (map coin_id cs) -> NoDup (map coin_id (take n cs)).
Proof.
  intros H. rewrite <- firstn_map.
  eapply sublist_NoDup; [|apply sublist_take]. done.
Qed.

(** C4 (amended): when every page of a collection is answered in the end by
    a list of at least [PER_PAGE] well-formed records, and [PER_PAGE]
    divides [TOTAL_COINS] (as 250 divides 2000), the call returns exactly
    [TOTAL_COINS] coins: the first [TOTAL_COINS] records of the accepted
    pages in feed order.  Their ids are pairwise distinct when the ids of
    the accepted records are; nothing in the collector removes a repeat. *)
Theorem full_collection_length_and_ids script cs rest :
  TOTAL_COINS mod PER_PAGE = 0 ->
  length script = PAGES ->
  Forall page_script_ok script ->
  coins_of (pages_records script) = Ok cs ->
  exists items,
    fetch_top_coins_with_price (pages_feed script ++ rest)
      = Run (Done items) (pages_trace 1 script) rest
    ∧ length items = TOTAL_COINS
    ∧ items = take TOTAL_COINS cs
    ∧ (NoDup (map coin_id cs) -> NoDup (map coin_id items)).
Proof.
  intros Hmod Hn Hok Hcs.
  exists (take TOTAL_COINS cs). repeat split.
  - by apply fetch_script.
  - apply length_take_le.
    rewrite (coins_of_length _ _ Hcs).
    pose proof (pages_records_length script Hok) as Hlen.
    rewrite Hn, PAGES_eq in Hlen.
    pose proof (Nat.Div0.div_exact TOTAL_COINS PER_PAGE) as [_ Hex].
    specialize (Hex Hmod). nia.
  - apply NoDup_take_ids.
Qed.

(** C7 (amended): when [PER_PAGE] does not divide [TOTAL_COINS] and every
    accepted page holds exactly [PER_PAGE] records, a collection that gets
    through all its pages returns [PAGES * PER_PAGE] coins, which is fewer
    than [TOTAL_COINS]; whatever the sizes of the accepted pages, it
    returns between [PAGES * PER_PAGE] and [TOTAL_COINS] coins. *)
Theorem full_collection_drops_remainder script cs rest :
  0 < PER_PAGE ->
  TOTAL_COINS mod PER_PAGE <> 0 ->
  length script = PAGES ->
  Forall page_script_ok script ->
  coins_of (pages_records script) = Ok cs ->
  exists items,
    fetch_top_coins_with_price (pages_feed script ++ rest)
      = Run (Done items) (pages_trace 1 script) rest
    ∧ PAGES * PER_PAGE <= length items <= TOTAL_COINS
    ∧ (Forall (fun e => length (records e) = PER_PAGE) script ->
       length items = PAGES * PER_PAGE ∧ length items < TOTAL_COINS).
Proof.
  intros Hpos Hmod Hn Hok Hcs.
  exists (take TOTAL_COINS cs).
  pose proof (pages_records_length script Hok) as Hlen.
  pose proof (coins_of_length _ _ Hcs) as Hcl.
  pose proof (Nat.div_mod_eq TOTAL_COINS PER_PAGE) as Hdm.
  pose proof (Nat.mod_upper_bound TOTAL_COINS PER_PAGE ltac:(lia)) as Hub.
  split; [by apply fetch_script|].
  rewrite Hn, PAGES_eq in Hlen. rewrite PAGES_eq.
  rewrite length_take. split; [nia|].
  intros Hexact. apply pages_records_exact in Hexact.
  rewrite Hn, PAGES_eq in Hexact. nia.
Qed.

(** ** Every returning run is a scripted one *)

Lemma request_page_done_inv page feed reply :
  outcome_of (request_page page feed) = Done reply ->
  exists pre fin,
    feed = pre ++ fin :: unread (request_page page feed)
    ∧ Forall (fun r => page_retried r = true) pre
    ∧ match reply with
      | Accepted l => fin = Body (JList l) ∧ PER_PAGE <= length l
      | Fatal => exists code, fin = HttpError code ∧ code <> 429
      end.
Proof.
  induction feed as [|r feed IH]; [done|].
  assert (Hretry : page_retried r = true ->
            outcome_of (after [GetPage page; Sleep 60] (request_page page feed)) = Done reply ->
            exists pre fin,
              r :: feed = pre ++ fin :: unread (after [GetPage page; Sleep 60] (request_page page feed))
              ∧ Forall (fun r => page_retried r = true) pre
              ∧ match reply with
                | Accepted l => fin = Body (JList l) ∧ PER_PAGE <= length l
                | Fatal => exists code, fin = HttpError code ∧ code <> 429
                end).
  { intros Hr H. destruct (IH H) as (pre & fin & Hfeed & Hpre & Hfin).
    exists (r :: pre), fin. simpl. split; [by f_equal|]. split; [by constructor|done]. }
  cbn [request_page]. destruct r as [|code|data].
  - by apply Hretry.
  - case_decide as Hc.
    + apply Hretry. simpl. by apply bool_decide_eq_true.
    + intros [= <-]. exists [], (HttpError code). simpl. repeat split; [constructor|].
      by exists code.
  - destruct data as [| | | |l|];
      try (by intros [=]);
      try (apply Hretry; by apply bool_decide_eq_true).
    case_decide as Hl.
    + apply Hretry. simpl. by apply bool_decide_eq_true.
    + intros [= <-]. exists [], (Body (JList l)). simpl.
      repeat split; [constructor|lia].
Qed.

(** A collection that returns has either been answered on every page, and
    then returns the first [TOTAL_COINS] of the accepted records, or has
    been cut short by a status other than 429 after some pages, and then
    returns all the records accepted until then. *)
Lemma collect_pages_done_inv pages : forall items feed out,
  outcome_of (collect_pages pages items feed) = Done out ->
  let rest := unread (collect_pages pages items feed) in
  (exists script cs,
     length script = length pages
     ∧ Forall page_script_ok script
     ∧ coins_of (pages_records script) = Ok cs
     ∧ feed = pages_feed script ++ rest
     ∧ out = take TOTAL_COINS (items ++ cs))
  ∨ (exists script cs pre code,
       length script < length pages
       ∧ Forall page_script_ok script
       ∧ coins_of (pages_records script) = Ok cs
       ∧ Forall (fun r => page_retried r = true) pre
       ∧ code <> 429
       ∧ feed = pages_feed script ++ pre ++ HttpError code :: rest
       ∧ out = items ++ cs).
Proof.
  induction pages as [|page pages IH]; intros items feed out; cbn [collect_pages].
  - intros [= <-]. left. exists [], []. simpl. by rewrite app_nil_r.
  - pose proof (request_page_done_inv page feed) as Hinv.
    destruct (outcome_of (request_page page feed)) as [[data|]|e|]; [| |done..];
      set (rest0 := unread (request_page page feed)) in *.
    + destruct (Hinv _ eq_refl) as (pre & fin & Hfeed & Hpre & -> & Hlen).
      destruct (coins_of data) as [new|] eqn:Hnew; [|done].
      cbn [after outcome_of unread]. intros H.
      set (e := PageScript pre data).
      assert (He : page_script_ok e) by done.
      assert (Hcat : forall script cs,
                coins_of (pages_records script) = Ok cs ->
                coins_of (pages_records (e :: script)) = Ok (new ++ cs)).
      { intros script cs Hcs. unfold pages_records in *. simpl.
        by rewrite coins_of_app, Hnew, Hcs. }
      destruct (IH _ _ _ H) as [(script & cs & Hn & Hok & Hcs & Hf & ->)
                               |(script & cs & pre' & code & Hn & Hok & Hcs & Hp & Hc & Hf & ->)].
      * left. exists (e :: script), (new ++ cs). simpl.
        split; [by rewrite Hn|]. split; [by constructor|]. split; [by apply Hcat|].
        split; [|by rewrite <- app_assoc].
        rewrite Hfeed. unfold pages_feed in *. simpl. unfold page_feed at 1. simpl.
        rewrite <- !app_assoc. simpl. by rewrite <- Hf.
      * right. exists (e :: script), (new ++ cs), pre', code. simpl.
        split; [lia|]. split; [by constructor|]. split; [by apply Hcat|].
        split; [done|]. split; [done|]. split; [|by rewrite <- app_assoc].
        rewrite Hfeed. unfold pages_feed in *. simpl. unfold page_feed at 1. simpl.
        rewrite <- !app_assoc. simpl. by rewrite <- Hf.
    + destruct (Hinv _ eq_refl) as (pre & fin & Hfeed & Hpre & code & -> & Hcode).
      cbn [outcome_of unread]. intros [= <-].
      right. exists [], [], pre, code. simpl.
      split; [lia|]. split; [constructor|]. split; [done|].
      split; [done|]. split; [done|]. split; [done|]. by rewrite app_nil_r.
Qed.

Lemma fetch_done_inv feed out :
  outcome_of (fetch_top_coins_with_price feed) = Done out ->
  let rest := unread (fetch_top_coins_with_price feed) in
  (exists script cs,
     length script = PAGES
     ∧ Forall page_script_ok script
     ∧ coins_of (pages_records script) = Ok cs
     ∧ feed = pages_feed script ++ rest
     ∧ out = take TOTAL_COINS cs)
  ∨ (exists script cs pre code,
       length script < PAGES
       ∧ Forall page_script_ok script
       ∧ coins_of (pages_records script) = Ok cs
       ∧ Forall (fun r => page_retried r = true) pre
       ∧ code <> 429
       ∧ feed = pages_feed script ++ pre ++ HttpError code :: rest
       ∧ out = cs).
Proof.
  intros H. apply collect_pages_done_inv in H. rewrite length_seq in H. exact H.
Qed.

Lemma page_feed_body e script :
  e ∈ script -> Body (JList (records e)) ∈ pages_feed script.
Proof.
  unfold pages_feed. induction 1 as [e script|e e' script _ IH]; simpl.
  - apply elem_of_app. left. unfold page_feed. apply elem_of_app. right. by left.
  - apply elem_of_app. by right.
Qed.

(** X6: where the bound of C6 does hold: a feed none of whose bodies has
    more than [PER_PAGE] records never makes the collection return more than
    [TOTAL_COINS] coins, on either return. *)
Lemma fetch_fitting_pages_bound feed out :
  (forall l, Body (JList l) ∈ feed -> length l <= PER_PAGE) ->
  outcome_of (fetch_top_coins_with_price feed) = Done out ->
  length out <= TOTAL_COINS.
Proof.
  intros Hfit H.
  apply fetch_done_inv in H
    as [(script & cs & Hn & Hok & Hcs & Hf & ->)
       |(script & cs & pre & code & Hn & Hok & Hcs & Hp & Hc & Hf & ->)].
  - rewrite length_take. lia.
  - assert (Hexact : Forall (fun e => length (records e) = PER_PAGE) script).
    { rewrite Forall_forall in Hok. apply Forall_forall. intros e He.
      destruct (Hok e He) as [_ Hge].
      assert (length (records e) <= PER_PAGE); [|lia].
      apply Hfit. rewrite Hf. apply elem_of_app. left. by apply page_feed_body. }
    rewrite (coins_of_length _ _ Hcs), (pages_records_exact _ Hexact).
    rewrite PAGES_eq in Hn.
    pose proof (Nat.Div0.mul_div_le TOTAL_COINS PER_PAGE). nia.
Qed.

(** ** The price refresh *)

Local Abbreviation refresh_batches := (refresh_batches PER_PAGE).
Local Abbreviation refresh_prices := (refresh_prices PER_PAGE).
Local Abbreviation batch_starts := (batch_starts PER_PAGE).
Local Abbreviation rows_of := (rows_of PER_PAGE).

Lemma request_batch_retries ids pre rest :
  Forall (fun r => batch_retried r = true) pre ->
  request_batch ids (pre ++ rest)
  = after (backoff (GetIds ids) (length pre)) (request_batch ids rest).
Proof.
  induction 1 as [|r pre Hr _ IH]; simpl.
  - by rewrite after_nil.
  - rewrite IH, after_after.
    destruct r as [|code|data]; simpl in Hr; [done| |done].
    case_decide; [done|]. by apply bool_decide_eq_true in Hr.
Qed.

Lemma request_batch_final ids r rest data :
  batch_data r = Some data ->
  request_batch ids (r :: rest) = Run (Done data) [GetIds ids] rest.
Proof.
  destruct r as [|code|d]; simpl; [done| |by intros [= ->]].
  case_decide; [done|]. by intros [= <-].
Qed.

Lemma py_strs_strings (l : list string) : py_strs (map JStr l) = Ok l.
Proof. induction l as [|x l IH]; simpl; [done|]. by rewrite IH. Qed.

Lemma py_join_strings sep (l : list string) :
  py_join sep (map JStr l) = Ok (String.concat sep l).
Proof. unfold py_join. by rewrite py_strs_strings. Qed.

(** The map built from an answer gives, for every id, the price of the last
    record that carries it. *)
Lemma price_entries_lookup cs : forall m0 m id,
  price_entries m0 cs = Ok m ->
  m !! id = match returned_price cs id with
            | Some p => Some p
            | None => m0 !! id
            end.
Proof.
  induction cs as [|c cs IH]; intros m0 m id; simpl.
  - by intros [= <-].
  - unfold price_entry, record_price.
    destruct (py_getitem c "id") as [k|]; simpl; [|done].
    destruct (py_getitem c "current_price") as [v|]; simpl; [|done].
    destruct (py_hashable k) eqn:Hk; simpl; [|done].
    intros H. rewrite (IH _ _ id H).
    destruct (returned_price cs id); [done|].
    destruct k; try done.
    case_decide as Hs.
    + subst. by rewrite lookup_insert_eq.
    + by rewrite lookup_insert_ne.
Qed.

Lemma price_map_lookup data cs m id :
  py_iter data = Ok cs ->
  price_map data = Ok m ->
  m !! id = returned_price cs id.
Proof.
  unfold price_map. intros ->; simpl. intros H.
  rewrite (price_entries_lookup _ _ _ id H), lookup_empty.
  by destruct (returned_price cs id).
Qed.

Lemma batch_price_get e data m id :
  batch_data (b_final e) = Some data ->
  price_map data = Ok m ->
  price_get m (JStr id) = batch_price e id.
Proof.
  intros Hd Hm. unfold batch_price, price_get. rewrite Hd.
  unfold price_map in Hm.
  destruct (py_iter data) as [cs|] eqn:Hit; [|done].
  by rewrite (price_map_lookup data cs m id Hit) by (unfold price_map; by rewrite Hit).
Qed.

(** The batch loop run on a feed that answers the next batches as scripted. *)
Lemma refresh_batches_script script : forall k (ids : list string) prices rest,
  Forall batch_script_ok script ->
  let r := refresh_batches (map (fun k => k * PER_PAGE) (seq k (length script)))
             (map JStr ids) prices (batches_feed script ++ rest) in
  outcome_of r = Done (prices ++ rows_of (drop (k * PER_PAGE) ids) script)
  ∧ unread r = rest.
Proof.
  induction script as [|e script IH]; intros k ids prices rest Hok.
  - simpl. by rewrite app_nil_r.
  - apply Forall_cons in Hok as [[Hpre (data & m & Hd & Hm)] Hok].
    change (batches_feed (e :: script)) with (batch_feed e ++ batches_feed script).
    unfold batch_feed. rewrite <- !app_assoc.
    change (map (fun k => k * PER_PAGE) (seq k (length (e :: script))))
      with (k * PER_PAGE :: map (fun k => k * PER_PAGE) (seq (S k) (length script))).
    cbn zeta. cbn [refresh_batches].
    rewrite skipn_map, firstn_map, py_join_strings.
    rewrite request_batch_retries by done.
    cbn [app]. rewrite (request_batch_final _ _ _ data Hd).
    cbn [after outcome_of trace unread]. rewrite Hm.
    cbn [after outcome_of trace unread].
    destruct (IH (S k) ids
                (prices ++ map (fun coin_id => [price_get m coin_id])
                                (map JStr (take PER_PAGE (drop (k * PER_PAGE) ids))))
                rest Hok) as [Ho Hu].
    cbn zeta in Ho, Hu. rewrite Ho, Hu. split; [|done].
    f_equal. rewrite <- app_assoc. f_equal.
    cbn [rows_of]. f_equal.
    + rewrite map_map. apply map_ext. intros id.
      by rewrite (batch_price_get e data m id Hd Hm).
    + rewrite drop_drop. do 2 f_equal. lia.
Qed.

Lemma rows_of_length script : forall ids : list string,
  length (rows_of ids script) = min (length ids) (length script * PER_PAGE).
Proof.
  induction script as [|e script IH]; intros ids; cbn [rows_of].
  - simpl. lia.
  - rewrite length_app, length_map, length_take, IH, length_drop. simpl. lia.
Qed.

Lemma div_step i : 0 < PER_PAGE -> PER_PAGE <= i -> i / PER_PAGE = S ((i - PER_PAGE) / PER_PAGE).
Proof.
  intros Hpos Hle.
  replace i with ((i - PER_PAGE) + 1 * PER_PAGE) at 1 by lia.
  rewrite Nat.div_add by lia. lia.
Qed.

Lemma rows_of_lookup script : forall (ids : list string) i id e,
  0 < PER_PAGE ->
  ids !! i = Some id ->
  script !! (i / PER_PAGE) = Some e ->
  rows_of ids script !! i = Some [batch_price e id].
Proof.
  induction script as [|e0 script IH]; intros ids i id e Hpos Hid He; [done|].
  cbn [rows_of]. pose proof (lookup_lt_Some _ _ _ Hid) as Hlt.
  destruct (decide (i < PER_PAGE)) as [Hi|Hi].
  - rewrite Nat.div_small in He by done. injection He as ->.
    rewrite lookup_app_l by (rewrite length_map, length_take; lia).
    change (map ?f ?l) with (f <$> l).
    by rewrite list_lookup_fmap, lookup_take_lt, Hid.
  - rewrite div_step in He by lia.
    rewrite lookup_app_r by (rewrite length_map, length_take; lia).
    rewrite length_map, length_take, Nat.min_l by lia.
    apply IH; [done| |done].
    rewrite lookup_drop. by replace (PER_PAGE + (i - PER_PAGE)) with i by lia.
Qed.

Lemma batch_starts_length n : length (batch_starts n) = (n + PER_PAGE - 1) / PER_PAGE.
Proof. unfold batch_starts. by rewrite length_map, length_seq. Qed.

Lemma batches_cover n : 0 < PER_PAGE -> n <= (n + PER_PAGE - 1) / PER_PAGE * PER_PAGE.
Proof.
  intros Hpos.
  pose proof (Nat.div_mod_eq (n + PER_PAGE - 1) PER_PAGE).
  pose proof (Nat.mod_upper_bound (n + PER_PAGE - 1) PER_PAGE ltac:(lia)).
  nia.
Qed.

Lemma refresh_batches_length starts : forall (ids : list json) prices feed out,
  outcome_of (refresh_batches starts ids prices feed) = Done out ->
  length out
  = length prices
    + sum_list (map (fun i => length (take PER_PAGE (drop i ids))) starts).
Proof.
  induction starts as [|i starts IH]; intros ids prices feed out;
    cbn [refresh_batches].
  - simpl. intros [= <-]. lia.
  - destruct (py_join "," _) as [joined|]; [|done].
    destruct (outcome_of (request_batch joined feed)) as [data|e|]; try done.
    destruct (price_map data) as [m|]; [|done].
    cbn [after outcome_of]. intros H%IH.
    rewrite H, length_app, length_map. simpl. lia.
Qed.

Lemma batches_sum (ids : list json) q : forall k,
  sum_list (map (fun i => length (take PER_PAGE (drop i ids)))
              (map (fun k => k * PER_PAGE) (seq k q)))
  = min (length ids - k * PER_PAGE) (q * PER_PAGE).
Proof.
  induction q as [|q IH]; intros k; simpl; [lia|].
  rewrite IH, length_take, length_drop. simpl. lia.
Qed.

(** Whatever the feed does and whatever the ids are, a refresh that returns
    has produced exactly one row per id. *)
Lemma refresh_prices_length (ids : list json) feed prices :
  0 < PER_PAGE ->
  outcome_of (refresh_prices ids feed) = Done prices ->
  length prices = length ids.
Proof.
  intros Hpos H. apply refresh_batches_length in H.
  unfold batch_starts in H. rewrite batches_sum in H.
  pose proof (batches_cover (length ids) Hpos). simpl in H. lia.
Qed.

Lemma request_batch_done_inv ids feed data :
  outcome_of (request_batch ids feed) = Done data ->
  exists pre fin,
    feed = pre ++ fin :: unread (request_batch ids feed)
    ∧ Forall (fun r => batch_retried r = true) pre
    ∧ batch_data fin = Some data.
Proof.
  induction feed as [|r feed IH]; [done|].
  assert (Hretry : batch_retried r = true ->
            outcome_of (after [GetIds ids; Sleep 60] (request_batch ids feed)) = Done data ->
            exists pre fin,
              r :: feed = pre ++ fin :: unread (after [GetIds ids; Sleep 60] (request_batch ids feed))
              ∧ Forall (fun r => batch_retried r = true) pre
              ∧ batch_data fin = Some data).
  { intros Hr H. destruct (IH H) as (pre & fin & Hfeed & Hpre & Hfin).
    exists (r :: pre), fin. simpl. split; [by f_equal|]. split; [by constructor|done]. }
  cbn [request_batch]. destruct r as [|code|d].
  - by apply Hretry.
  - case_decide as Hc.
    + apply Hretry. simpl. by apply bool_decide_eq_true.
    + intros [= <-]. exists [], (HttpError code). simpl.
      repeat split; [constructor|]. by case_decide.
  - intros [= <-]. exists [], (Body d). simpl. repeat split. constructor.
Qed.

(** A refresh that returns has been answered on every batch as a script
    says, and its rows are those of the script. *)
Lemma refresh_batches_done_inv q : forall k (ids : list string) prices feed out,
  let r := refresh_batches (map (fun k => k * PER_PAGE) (seq k q))
             (map JStr ids) prices feed in
  outcome_of r = Done out ->
  exists script,
    length script = q
    ∧ Forall batch_script_ok script
    ∧ feed = batches_feed script ++ unread r
    ∧ out = prices ++ rows_of (drop (k * PER_PAGE) ids) script.
Proof.
  induction q as [|q IH]; intros k ids prices feed out; cbn zeta.
  - simpl. intros [= <-]. exists []. simpl. by rewrite app_nil_r.
  - change (map (fun k => k * PER_PAGE) (seq k (S q)))
      with (k * PER_PAGE :: map (fun k => k * PER_PAGE) (seq (S k) q)).
    cbn [refresh_batches].
    rewrite skipn_map, firstn_map, py_join_strings.
    set (joined := String.concat "," (take PER_PAGE (drop (k * PER_PAGE) ids))).
    pose proof (request_batch_done_inv joined feed) as Hinv.
    destruct (outcome_of (request_batch joined feed)) as [data|e|]; [|done..].
    set (rest0 := unread (request_batch joined feed)) in *.
    destruct (Hinv _ eq_refl) as (pre & fin & Hfeed & Hpre & Hfin).
    destruct (price_map data) as [m|] eqn:Hm; [|done].
    cbn [after outcome_of unread]. intros H.
    destruct (IH _ _ _ _ _ H) as (script & Hn & Hok & Hf & ->).
    set (e := BatchScript pre fin).
    exists (e :: script). simpl. split; [by rewrite Hn|]. split.
    { constructor; [|done]. split; [done|]. by exists data, m. }
    split.
    + rewrite Hfeed. unfold batches_feed in *. simpl. unfold batch_feed at 1. simpl.
      rewrite <- !app_assoc. simpl. by rewrite <- Hf.
    + rewrite <- app_assoc. f_equal. cbn [rows_of]. f_equal.
      * rewrite map_map. apply map_ext. intros id.
        by rewrite (batch_price_get e data m id Hfin Hm).
      * rewrite drop_drop. do 2 f_equal. lia.
Qed.

(** C1: a refresh that returns has produced one row per input id, in input
    order, whatever the feed answered: every batch has then been answered
    in the end (after any number of 429s and failed requests, by a body the
    price map could be built from or by an HTTP error other than 429), and
    the row at position [i] holds what the answer to the batch of [i] gives
    for the id at [i]: the price of the record carrying that id, or the
    empty string when the answer has no such record, which is the case of
    every id of a batch that an HTTP error left with empty data.
    Conversely, on every feed that answers the batches in this way the
    refresh does return. *)
Theorem refresh_keeps_length_and_order (ids : list string) :
  0 < PER_PAGE ->
  (forall feed prices,
     let r := refresh_prices (map JStr ids) feed in
     outcome_of r = Done prices ->
     length prices = length ids
     ∧ exists script,
         feed = batches_feed script ++ unread r
         ∧ Forall batch_script_ok script
         ∧ (forall i id, ids !! i = Some id ->
              exists e, script !! (i / PER_PAGE) = Some e
                        ∧ prices !! i = Some [batch_price e id]))
  ∧ (forall script rest,
       length script = length (batch_starts (length ids)) ->
       Forall batch_script_ok script ->
       exists prices,
         let r := refresh_prices (map JStr ids) (batches_feed script ++ rest) in
         outcome_of r = Done prices
         ∧ unread r = rest
         ∧ length prices = length ids
         ∧ (forall i id, ids !! i = Some id ->
              exists e, script !! (i / PER_PAGE) = Some e
                        ∧ prices !! i = Some [batch_price e id])
         ∧ (forall e code id, e ∈ script -> b_final e = HttpError code ->
              batch_price e id = JStr "")).
Proof.
  intros Hpos.
  assert (Hrows : forall script,
            length script = (length ids + PER_PAGE - 1) / PER_PAGE ->
            forall i id, ids !! i = Some id ->
              exists e, script !! (i / PER_PAGE) = Some e
                        ∧ rows_of ids script !! i = Some [batch_price e id]).
  { intros script Hn i id Hid.
    pose proof (batches_cover (length ids) Hpos) as Hcov. rewrite <- Hn in Hcov.
    pose proof (lookup_lt_Some _ _ _ Hid) as Hlt.
    assert (Hq : i / PER_PAGE < length script).
    { pose proof (Nat.div_mod_eq i PER_PAGE).
      pose proof (Nat.mod_upper_bound i PER_PAGE ltac:(lia)). nia. }
    apply lookup_lt_is_Some in Hq as [e He].
    exists e. split; [done|]. by apply rows_of_lookup. }
  split.
  { intros feed prices r H. split.
    { apply refresh_prices_length in H; [|done]. by rewrite length_map in H. }
    subst r. unfold refresh_prices, batch_starts in *. rewrite length_map in *.
    apply refresh_batches_done_inv in H as (script & Hn & Hok & Hfeed & ->).
    exists script. split; [done|]. split; [done|]. simpl. by apply Hrows. }
  intros script rest Hn Hok.
  exists (rows_of ids script). cbn zeta.
  unfold refresh_prices, batch_starts.
  rewrite length_map. rewrite batch_starts_length in Hn. rewrite <- Hn.
  destruct (refresh_batches_script script 0 ids [] rest Hok) as [Ho Hu].
  cbn zeta in Ho, Hu. rewrite Ho, Hu. simpl.
  pose proof (batches_cover (length ids) Hpos) as Hcov. rewrite <- Hn in Hcov.
  repeat split.
  - rewrite rows_of_length. lia.
  - by apply Hrows.
  - intros e code id _ Hfin. unfold batch_price. rewrite Hfin. simpl.
    by case_decide.
Qed.

(** ** The sync *)

Local Abbreviation sync_to_sheet :=
  (sync_to_sheet PER_PAGE TOTAL_COINS str_upper store_cell).
Local Abbreviation first_load := (first_load PER_PAGE TOTAL_COINS str_upper store_cell).
Local Abbreviation later_load := (later_load PER_PAGE TOTAL_COINS store_cell).
Local Abbreviation update_prices_only := (update_prices_only PER_PAGE store_cell).
Local Abbreviation wks_update := (wks_update store_cell).
Local Abbreviation write_full_table := (write_full_table store_cell).
Local Abbreviation ensure_worksheet := (ensure_worksheet TOTAL_COINS).
Local Abbreviation frozen_ids_for := (frozen_ids_for TOTAL_COINS).
Local Abbreviation load_frozen_coins := (load_frozen_coins TOTAL_COINS).

Lemma request_page_events page feed :
  Forall page_event (trace (request_page page feed)).
Proof.
  induction feed as [|r feed IH]; simpl; [constructor|].
  assert (Hretry : Forall page_event
            (trace (after [GetPage page; Sleep 60] (request_page page feed)))).
  { simpl. by repeat constructor. }
  destruct r as [|code|data]; [done| |].
  - case_decide; [done|]. simpl. by repeat constructor.
  - destruct data; simpl; try done; try (by repeat constructor).
    case_decide; [done|]. simpl. by repeat constructor.
Qed.

Lemma collect_pages_events pages : forall items feed,
  Forall page_event (trace (collect_pages pages items feed)).
Proof.
  induction pages as [|page pages IH]; intros items feed; cbn [collect_pages].
  - constructor.
  - pose proof (request_page_events page feed) as Hp.
    destruct (outcome_of (request_page page feed)) as [[data|]|e|]; try done.
    destruct (coins_of data); [|done].
    simpl. rewrite !Forall_app. repeat split; [done| |apply IH].
    by repeat constructor.
Qed.

Lemma request_batch_events ids feed :
  Forall batch_event (trace (request_batch ids feed)).
Proof.
  induction feed as [|r feed IH]; simpl; [constructor|].
  destruct r as [|code|data]; simpl.
  - by repeat constructor.
  - case_decide; simpl; by repeat constructor.
  - by repeat constructor.
Qed.

Lemma refresh_batches_events starts : forall ids prices feed,
  Forall batch_event (trace (refresh_batches starts ids prices feed)).
Proof.
  induction starts as [|i starts IH]; intros ids prices feed; cbn [refresh_batches].
  - constructor.
  - destruct (py_join "," _) as [joined|]; [|constructor].
    pose proof (request_batch_events joined feed) as Hb.
    destruct (outcome_of (request_batch joined feed)) as [data|e|]; try done.
    destruct (price_map data); [|done].
    simpl. rewrite !Forall_app. repeat split; [done| |apply IH].
    by repeat constructor.
Qed.

Lemma in_price_range n r c :
  in_range (price_range n) r c = true <-> c = 3 ∧ 2 <= r <= n + 1.
Proof.
  unfold in_range, price_range.
  rewrite !andb_true_iff, !Nat.leb_le. lia.
Qed.

(** A write leaves the size of the grid and every cell outside its range as
    they were. *)
Lemma wks_update_frame values rg s s' :
  wks_update values rg s = Ok s' ->
  row_count s' = row_count s
  ∧ col_count s' = col_count s
  ∧ (forall r c, in_range rg r c = false -> cells s' r c = cells s r c).
Proof.
  unfold wks_update. destruct rg as [c1 r1 c2 r2].
  case_decide; [|done]. intros [= <-]; simpl. repeat split.
  intros r c Hout. by rewrite Hout.
Qed.

Lemma wks_update_written values c1 r1 c2 r2 s s' r c row v :
  wks_update values (A1Range c1 r1 c2 r2) s = Ok s' ->
  in_range (A1Range c1 r1 c2 r2) r c = true ->
  values !! (r - r1) = Some row ->
  row !! (c - c1) = Some v ->
  cells s' r c = store_cell v (cells s r c).
Proof.
  unfold wks_update. case_decide; [|done]. intros [= <-] Hin Hrow Hv.
  cbn [cells]. simpl in Hin. by rewrite Hin, Hrow, Hv.
Qed.

(** What [update_prices_only] does to the world and which events it
    causes, whatever the feed. *)
Lemma update_prices_only_effects w wks frozen_ids feed :
  sheet w = Some wks ->
  let r := update_prices_only w wks frozen_ids feed in
  let n := length frozen_ids in
  Forall refresh_event (sync_trace r)
  ∧ (forall values rg, Update values rg ∈ sync_trace r ->
       rg = price_range n
       ∧ outcome_of (refresh_prices frozen_ids feed) = Done values)
  ∧ frozen_file (sync_world r) = frozen_file w
  ∧ exists wks', sheet (sync_world r) = Some wks'
      ∧ row_count wks' = row_count wks
      ∧ (forall row col, in_range (price_range n) row col = false ->
           cells wks' row col = cells wks row col).
Proof.
  intros Hs r n. subst r. unfold update_prices_only.
  pose proof (refresh_batches_events (batch_starts (length frozen_ids))
                frozen_ids [] feed) as Hev.
  fold (refresh_prices frozen_ids feed) in Hev.
  assert (Hweak : forall l, Forall batch_event l -> Forall refresh_event l).
  { intros l Hl. eapply Forall_impl; [exact Hl|]. by intros []. }
  assert (Hno : forall l values rg, Forall batch_event l -> Update values rg ∉ l).
  { intros l values rg Hl Hin. rewrite Forall_forall in Hl. by apply Hl in Hin. }
  destruct (outcome_of (refresh_prices frozen_ids feed)) as [prices|e|] eqn:Hout.
  - destruct (wks_update prices (price_range (length frozen_ids)) wks) as [wks'|e] eqn:Hw;
      cbn [sync_trace sync_world frozen_file sheet].
    + repeat split.
      * apply Forall_app. split; [by apply Hweak|]. repeat constructor. by eexists.
      * apply elem_of_app in H as [H|H]; [by apply Hno in H|].
        by apply list_elem_of_singleton in H as [= -> ->].
      * apply elem_of_app in H as [H|H]; [by apply Hno in H|].
        by apply list_elem_of_singleton in H as [= -> ->].
      * exists wks'. apply wks_update_frame in Hw as (? & ? & ?). done.
    + repeat split.
      * apply Forall_app. split; [by apply Hweak|]. repeat constructor. by eexists.
      * apply elem_of_app in H as [H|H]; [by apply Hno in H|].
        by apply list_elem_of_singleton in H as [= -> ->].
      * apply elem_of_app in H as [H|H]; [by apply Hno in H|].
        by apply list_elem_of_singleton in H as [= -> ->].
      * exists wks. done.
  - cbn [sync_trace sync_world]. repeat split; [by apply Hweak| | |by exists wks];
      by apply Hno in H.
  - cbn [sync_trace sync_world]. repeat split; [by apply Hweak| | |by exists wks];
      by apply Hno in H.
Qed.

Lemma update_prices_only_done w wks frozen_ids feed :
  let r := update_prices_only w wks frozen_ids feed in
  let n := length frozen_ids in
  sync_outcome r = Done tt ->
  exists prices wks',
    outcome_of (refresh_prices frozen_ids feed) = Done prices
    ∧ sync_trace r = trace (refresh_prices frozen_ids feed) ++ [Update prices (price_range n)]
    ∧ wks_update prices (price_range n) wks = Ok wks'
    ∧ sync_world r = World (Some wks') (frozen_file w).
Proof.
  cbn zeta. unfold update_prices_only.
  destruct (outcome_of (refresh_prices frozen_ids feed)) as [prices|e|]; [|done..].
  destruct (wks_update prices _ wks) as [wks'|e] eqn:Hw; [|done].
  intros _. by exists prices, wks'.
Qed.

Lemma frozen_ids_for_length w wks :
  length (frozen_ids_for w wks).1 <= TOTAL_COINS
  ∧ (is_Some (load_frozen_coins w) -> length (frozen_ids_for w wks).1 = TOTAL_COINS).
Proof.
  unfold frozen_ids_for, load_frozen_coins.
  assert (Hfall : length (map JStr (take TOTAL_COINS (drop 1 (col_values 1 wks))))
                  <= TOTAL_COINS).
  { rewrite length_map, length_take. lia. }
  destruct (frozen_file w) as [[[]|]|]; simpl;
    try (split; [done|by intros [? [=]]]).
  case_decide as Hl; simpl; [|split; [done|by intros [? [=]]]].
  assert (Hlen : length (take TOTAL_COINS l) = TOTAL_COINS) by (by apply length_take_le).
  destruct (take TOTAL_COINS l) as [|x t]; simpl in *.
  - split; [done|]. intros _. lia.
  - split; [lia|done].
Qed.

(** A sync that reads "ID" in A1 is the refresh of the later runs. *)
Lemma sync_initialized f w s feed :
  sheet w = Some s ->
  acell_raises f = false ->
  cells s 1 1 = "ID" ->
  sync_to_sheet f w feed
  = let r := update_prices_only w s (frozen_ids_for w s).1 feed in
    SyncRun (sync_outcome r) (sync_world r)
      (ReadA1 :: (frozen_ids_for w s).2 ++ sync_trace r) (sync_unread r).
Proof.
  intros Hs Hf Ha. destruct w as [sh file]; simpl in Hs; subst sh.
  unfold sync_to_sheet, ensure_worksheet, read_header; simpl.
  rewrite Hf, Ha; simpl. unfold later_load.
  by destruct (frozen_ids_for _ _).
Qed.

Lemma frozen_ids_for_events w wks : Forall refresh_event (frozen_ids_for w wks).2.
Proof.
  unfold frozen_ids_for.
  destruct (load_frozen_coins w) as [[|]|]; simpl; by repeat constructor.
Qed.

Lemma frozen_ids_for_no_update w wks values rg :
  Update values rg ∉ (frozen_ids_for w wks).2.
Proof.
  unfold frozen_ids_for.
  destruct (load_frozen_coins w) as [[|]|]; simpl;
    intros H; repeat (apply elem_of_cons in H as [[=]|H]); by apply elem_of_nil in H.
Qed.

(** C5 (amended): a run that reads "ID" in A1 requests no ranked page,
    adds no tab and saves no cache, and the only write it can issue goes to
    [C2:C(n+1)] with exactly [n] rows, [n] being the number of ids in use:
    [TOTAL_COINS] when the cache file is usable, at most [TOTAL_COINS] when
    the ids are read from column A.  A run that returns has issued that
    write as its last event.  Afterwards row 1, columns A and B and every
    cell outside that range hold what they held, and the cell of column C in
    row [k] has taken the price computed for the id at position [k - 2]. *)
Theorem refresh_run_writes_price_range f w s feed :
  0 < PER_PAGE ->
  sheet w = Some s ->
  acell_raises f = false ->
  cells s 1 1 = "ID" ->
  let r := sync_to_sheet f w feed in
  let ids := (frozen_ids_for w s).1 in
  let n := length ids in
  n <= TOTAL_COINS
  ∧ (is_Some (load_frozen_coins w) -> n = TOTAL_COINS)
  ∧ Forall refresh_event (sync_trace r)
  ∧ (forall values rg, Update values rg ∈ sync_trace r ->
       rg = price_range n ∧ length values = n)
  ∧ (exists s', sheet (sync_world r) = Some s'
       ∧ (forall row col, col <> 3 ∨ row < 2 ∨ n + 1 < row ->
            cells s' row col = cells s row col)
       ∧ (sync_outcome r = Done tt ->
          exists prices,
            outcome_of (refresh_prices ids feed) = Done prices
            ∧ last (sync_trace r) = Some (Update prices (price_range n))
            ∧ (forall k v t, 2 <= k <= n + 1 -> prices !! (k - 2) = Some (v :: t) ->
                 cells s' k 3 = store_cell v (cells s k 3)))).
Proof.
  intros Hpos Hs Hf Ha r ids n. subst r.
  rewrite (sync_initialized f w s feed Hs Hf Ha). cbn zeta.
  cbn [sync_trace sync_world sync_outcome].
  fold ids.
  destruct (frozen_ids_for_length w s) as [Hle Heq].
  destruct (update_prices_only_effects w s ids feed Hs)
    as (Hev & Hup & Hfile & s' & Hs' & Hrows & Hframe).
  fold n in Hup, Hframe.
  split; [done|]. split; [done|]. split.
  { constructor; [done|]. apply Forall_app. split; [apply frozen_ids_for_events|done]. }
  split.
  { intros values rg [[=]|H]%elem_of_cons.
    apply elem_of_app in H as [H|H]; [by apply frozen_ids_for_no_update in H|].
    apply Hup in H as [-> Hdone]. split; [done|].
    by apply refresh_prices_length in Hdone. }
  exists s'. split; [done|]. split.
  { intros row col Hout. apply Hframe.
    apply not_true_is_false. rewrite in_price_range. lia. }
  intros Hdone.
  destruct (update_prices_only_done w s ids feed Hdone)
    as (prices & s2 & Hp & Htr & Hw & Hworld).
  fold n in Htr, Hw.
  exists prices. split; [done|]. split.
  { rewrite Htr. rewrite app_comm_cons, !app_assoc. apply last_snoc. }
  intros k v t Hk Hrow.
  rewrite Hworld in Hs'. simpl in Hs'. injection Hs' as <-.
  unfold price_range in Hw.
  eapply (wks_update_written _ _ _ _ _ _ _ k 3 (v :: t) v Hw); [|done|done].
  apply (in_price_range n). lia.
Qed.

(** C2 (amended): when A1 holds "ID" and reading it does not raise, a sync
    requests no ranked page, writes no full table and saves no cache: all it
    does is the price refresh, whose only write is to a range [C2:C(n+1)].
    So after one such run, and after a second one on the store the first has
    left, every cell of columns A and B (and row 1) holds what it held
    before the first run, and the cache file is untouched. *)
Theorem initialized_sync_only_refreshes f1 f2 w s feed1 feed2 :
  sheet w = Some s ->
  cells s 1 1 = "ID" ->
  acell_raises f1 = false ->
  acell_raises f2 = false ->
  let r1 := sync_to_sheet f1 w feed1 in
  let r2 := sync_to_sheet f2 (sync_world r1) feed2 in
  Forall refresh_event (sync_trace r1)
  ∧ Forall refresh_event (sync_trace r2)
  ∧ frozen_file (sync_world r1) = frozen_file w
  ∧ frozen_file (sync_world r2) = frozen_file w
  ∧ exists s1 s2,
      sheet (sync_world r1) = Some s1
      ∧ sheet (sync_world r2) = Some s2
      ∧ (forall row col, col <> 3 ∨ row < 2 ->
           cells s1 row col = cells s row col ∧ cells s2 row col = cells s row col).
Proof.
  intros Hs Ha Hf1 Hf2 r1 r2.
  assert (Hone : forall f w s feed,
            sheet w = Some s -> cells s 1 1 = "ID" -> acell_raises f = false ->
            let r := sync_to_sheet f w feed in
            Forall refresh_event (sync_trace r)
            ∧ frozen_file (sync_world r) = frozen_file w
            ∧ exists s', sheet (sync_world r) = Some s'
                ∧ (forall row col, col <> 3 ∨ row < 2 ->
                     cells s' row col = cells s row col)).
  { clear. intros f w s feed Hs Ha Hf r. subst r.
    rewrite (sync_initialized f w s feed Hs Hf Ha). cbn zeta.
    cbn [sync_trace sync_world].
    destruct (update_prices_only_effects w s (frozen_ids_for w s).1 feed Hs)
      as (Hev & _ & Hfile & s' & Hs' & _ & Hframe).
    split; [|split; [done|]].
    - constructor; [done|]. apply Forall_app. split; [apply frozen_ids_for_events|done].
    - exists s'. split; [done|]. intros row col Hout. apply Hframe.
      apply not_true_is_false. rewrite in_price_range. lia. }
  destruct (Hone f1 w s feed1 Hs Ha Hf1) as (Hev1 & Hfile1 & s1 & Hs1 & Hframe1).
  fold r1 in Hev1, Hfile1, Hs1.
  assert (Ha1 : cells s1 1 1 = "ID") by (rewrite Hframe1; [done|lia]).
  destruct (Hone f2 (sync_world r1) s1 feed2 Hs1 Ha1 Hf2) as (Hev2 & Hfile2 & s2 & Hs2 & Hframe2).
  fold r2 in Hev2, Hfile2, Hs2.
  split; [done|]. split; [done|]. split; [done|]. split; [congruence|].
  exists s1, s2. split; [done|]. split; [done|].
  intros row col Hout. split; [by apply Hframe1|].
  rewrite Hframe2 by done. by apply Hframe1.
Qed.

Lemma ensure_worksheet_events w : Forall silent_event (ensure_worksheet w).2.
Proof. unfold ensure_worksheet. destruct (sheet w); simpl; by repeat constructor. Qed.

Lemma page_events_silent l : Forall page_event l -> Forall silent_event l.
Proof. intros Hl. eapply Forall_impl; [exact Hl|]. by intros []. Qed.

Lemma fetch_events feed : Forall page_event (trace (fetch_top_coins_with_price feed)).
Proof. apply collect_pages_events. Qed.

(** A sync that does not read "ID" in A1 is the full load of a first run. *)
Lemma sync_uninitialized f w feed :
  read_header f (ensure_worksheet w).1 <> Some "ID" ->
  sync_to_sheet f w feed
  = let wks := (ensure_worksheet w).1 in
    let r := first_load f (World (Some wks) (frozen_file w)) wks feed in
    SyncRun (sync_outcome r) (sync_world r)
      ((ensure_worksheet w).2 ++ ReadA1 :: sync_trace r) (sync_unread r).
Proof.
  intros Hh. unfold sync_to_sheet.
  destruct (ensure_worksheet w) as [wks made]; simpl in *.
  by case_decide.
Qed.

(** C3 (amended): on a run that does not read "ID" in A1, a collection
    that returns no record ends the run at once: no range is written and the
    cache is not saved.  The cache file is as before, and so is the whole
    store when the tab existed; when it did not, the run has created it,
    empty, before reading A1, and that is all that has changed. *)
Theorem empty_collection_aborts_without_writing f w feed :
  read_header f (ensure_worksheet w).1 <> Some "ID" ->
  outcome_of (fetch_top_coins_with_price feed) = Done [] ->
  let r := sync_to_sheet f w feed in
  sync_outcome r = Done tt
  ∧ Forall silent_event (sync_trace r)
  ∧ frozen_file (sync_world r) = frozen_file w
  ∧ sheet (sync_world r) = Some (ensure_worksheet w).1
  ∧ (is_Some (sheet w) -> sync_world r = w).
Proof.
  intros Hh Hc r. subst r.
  rewrite (sync_uninitialized f w feed Hh). cbn zeta.
  unfold first_load. rewrite Hc. cbn [sync_outcome sync_world sync_trace].
  repeat split.
  - apply Forall_app. split; [apply ensure_worksheet_events|].
    constructor; [done|]. apply page_events_silent, fetch_events.
  - intros [s Hs]. unfold ensure_worksheet. rewrite Hs. simpl.
    destruct w; simpl in *. by subst.
Qed.




Lemma full_range_rows coins : full_range coins = A1Range 1 1 3 (length coins + 1).
Proof.
  unfold full_range, full_table. simpl. rewrite length_map. f_equal. lia.
Qed.


(** * Further properties of the program *)

(** ** The cache file *)

(** X1: what [save_frozen_coins] has written, [load_frozen_coins] reads
    back cut to [TOTAL_COINS]; a list shorter than [TOTAL_COINS] (the ids of
    a truncated first load) is saved but never loaded again.  The tab is
    not touched. *)
Theorem saved_ids_load_back f ids w :
  save_raises f = false ->
  let w' := save_frozen_coins f ids w in
  sheet w' = sheet w
  ∧ (TOTAL_COINS <= length ids -> load_frozen_coins w' = Some (take TOTAL_COINS ids))
  ∧ (length ids = TOTAL_COINS -> load_frozen_coins w' = Some ids)
  ∧ (length ids < TOTAL_COINS -> load_frozen_coins w' = None).
Proof.
  intros Hf. unfold save_frozen_coins, load_frozen_coins. rewrite Hf. simpl.
  split; [done|]. split; [|split]; intros H; case_decide; try lia; try done.
  by rewrite take_ge by lia.
Qed.

(** ** The collector *)

(** X2: waiting and asking again leaves no mark on what is collected: two
    feeds that answer every page in the end with the same records, after
    whatever 429s, failed requests and short pages, give the same coins. *)
Theorem retries_do_not_change_the_collection s1 s2 cs rest1 rest2 :
  length s1 = PAGES ->
  map records s1 = map records s2 ->
  Forall page_script_ok s1 ->
  Forall page_script_ok s2 ->
  coins_of (pages_records s1) = Ok cs ->
  outcome_of (fetch_top_coins_with_price (pages_feed s1 ++ rest1)) = Done (take TOTAL_COINS cs)
  ∧ outcome_of (fetch_top_coins_with_price (pages_feed s2 ++ rest2)) = Done (take TOTAL_COINS cs).
Proof.
  intros Hn Hrec Hok1 Hok2 Hcs.
  assert (Hn2 : length s2 = PAGES).
  { rewrite <- Hn, <- (length_map records s1), Hrec. by rewrite length_map. }
  assert (Hcs2 : coins_of (pages_records s2) = Ok cs).
  { unfold pages_records in *. by rewrite <- Hrec. }
  by rewrite (fetch_script s1 cs rest1), (fetch_script s2 cs rest2).
Qed.

Lemma request_page_trace page feed ev :
  ev ∈ trace (request_page page feed) -> ev = GetPage page ∨ ev = Sleep 60.
Proof.
  induction feed as [|r feed IH]; simpl; [by intros ?%elem_of_nil|].
  assert (Hretry : ev ∈ trace (after [GetPage page; Sleep 60] (request_page page feed)) ->
                   ev = GetPage page ∨ ev = Sleep 60).
  { simpl. intros [->|H]%elem_of_cons; [by left|].
    apply elem_of_cons in H as [->|H]; [by right|]. by apply IH. }
  assert (Hone : ev ∈ [GetPage page] -> ev = GetPage page ∨ ev = Sleep 60).
  { intros ->%list_elem_of_singleton. by left. }
  destruct r as [|code|data]; [done| |].
  - by case_decide.
  - destruct data; simpl; try done. by case_decide.
Qed.

(** X3: the collector asks for the pages 1 to [PAGES] and for no other, and
    sleeps 20 or 60 seconds at a time, whatever the feed answers. *)
Theorem collector_requests_known_pages feed ev :
  ev ∈ trace (fetch_top_coins_with_price feed) ->
  (exists page, ev = GetPage page ∧ 1 <= page <= PAGES) ∨ ev = Sleep 20 ∨ ev = Sleep 60.
Proof.
  unfold fetch_top_coins_with_price.
  assert (Hgen : forall pages items feed,
            ev ∈ trace (collect_pages pages items feed) ->
            (exists page, ev = GetPage page ∧ page ∈ pages) ∨ ev = Sleep 20 ∨ ev = Sleep 60).
  { clear feed. induction pages as [|page pages IH]; intros items feed;
      cbn [collect_pages]; [by intros ?%elem_of_nil|].
    assert (Hp : ev ∈ trace (request_page page feed) ->
                 (exists p, ev = GetPage p ∧ p ∈ page :: pages) ∨ ev = Sleep 20 ∨ ev = Sleep 60).
    { intros [->| ->]%request_page_trace; [left|by right; right].
      exists page. split; [done|]. by left. }
    destruct (outcome_of (request_page page feed)) as [[data|]|e|]; try done.
    destruct (coins_of data); [|done].
    cbn [after trace]. rewrite !elem_of_app. intros [[H|H]|H].
    - by apply Hp.
    - apply list_elem_of_singleton in H. by right; left.
    - apply IH in H as [(p & -> & Hin)|H]; [left|by right].
      exists p. split; [done|]. by right. }
  intros H. apply Hgen in H as [(p & -> & Hin)|H]; [left|by right].
  exists p. split; [done|]. apply elem_of_seq in Hin. lia.
Qed.

(** X4: with fewer coins wanted than a page holds, [PAGES] is 0: the
    collector returns no coin without asking the feed for anything, so a
    sync that does not read "ID" ends right after reading A1 and never
    fills the tab. *)
Theorem small_total_collects_nothing feed :
  TOTAL_COINS < PER_PAGE ->
  fetch_top_coins_with_price feed = Run (Done []) [] feed
  ∧ (forall f w, read_header f (ensure_worksheet w).1 <> Some "ID" ->
       let r := sync_to_sheet f w feed in
       sync_outcome r = Done tt
       ∧ sync_trace r = (ensure_worksheet w).2 ++ [ReadA1]
       ∧ sync_unread r = feed
       ∧ frozen_file (sync_world r) = frozen_file w).
Proof.
  intros Hlt.
  assert (Hf : fetch_top_coins_with_price feed = Run (Done []) [] feed).
  { unfold fetch_top_coins_with_price. rewrite PAGES_eq, Nat.div_small by done.
    simpl. by rewrite take_nil. }
  split; [done|]. intros f w Hh r. subst r.
  rewrite (sync_uninitialized f w feed Hh). cbn zeta.
  unfold first_load. by rewrite Hf.
Qed.

Lemma coins_of_malformed data c e :
  c ∈ data -> coin_of str_upper c = Raise e -> exists e', coins_of data = Raise e'.
Proof.
  induction 1 as [c data|c c' data _ IH]; intros Hc; simpl.
  - rewrite Hc. by eexists.
  - destruct (coin_of str_upper c') as [x|e1]; simpl; [|by eexists].
    destruct (IH Hc) as [e' ->]. by eexists.
Qed.

(** X5: one record that is not an object, lacks one of the keys "id",
    "symbol", "current_price" or has a symbol that is not a string, anywhere
    in a page that is accepted, makes the whole collection raise: no coin is
    returned, those of the pages completed before included. *)
Theorem malformed_record_raises script cs pre data c e rest :
  Forall page_script_ok script ->
  coins_of (pages_records script) = Ok cs ->
  length script < PAGES ->
  Forall (fun r => page_retried r = true) pre ->
  PER_PAGE <= length data ->
  c ∈ data ->
  coin_of str_upper c = Raise e ->
  let r := fetch_top_coins_with_price
             (pages_feed script ++ pre ++ Body (JList data) :: rest) in
  (exists e', outcome_of r = Raised e') ∧ unread r = rest.
Proof.
  intros Hok Hcs Hlt Hpre Hlen Hin Hc r. subst r.
  destruct (coins_of_malformed data c e Hin Hc) as [e' He'].
  unfold fetch_top_coins_with_price.
  replace PAGES with (length script + S (PAGES - S (length script))) by lia.
  rewrite seq_app.
  rewrite (collect_pages_script script 1 [] cs _ _ Hok Hcs).
  change (seq (1 + length script) (S (PAGES - S (length script))))
    with (S (length script) :: seq (S (S (length script))) (PAGES - S (length script))).
  cbn [collect_pages].
  rewrite request_page_retries by done.
  rewrite request_page_accepts by done.
  cbn [after outcome_of trace unread]. rewrite He'.
  cbn [after outcome_of trace unread]. split; [by exists e'|done].
Qed.

(** The exception a record raises, by what is wrong with it. *)
Lemma coin_of_errors c :
  match c with
  | JDict kv =>
      match assoc "id" kv, assoc "symbol" kv, assoc "current_price" kv with
      | Some i, Some (JStr s), Some p => coin_of str_upper c = Ok (Coin i (str_upper s) p)
      | Some _, Some (JStr _), None => coin_of str_upper c = Raise KeyError
      | Some _, Some _, _ => coin_of str_upper c = Raise AttributeError
      | _, _, _ => coin_of str_upper c = Raise KeyError
      end
  | _ => coin_of str_upper c = Raise TypeError
  end.
Proof.
  destruct c as [| | | | |kv]; try done.
  unfold coin_of; simpl.
  destruct (assoc "id" kv); simpl; [|done].
  destruct (assoc "symbol" kv) as [[]|]; simpl; try done.
  by destruct (assoc "current_price" kv).
Qed.

(** ** The two writes *)

(** X7: [write_full_table] is refused, and changes nothing, exactly when
    the grid has fewer than [len(coins) + 1] rows or fewer than 3 columns.
    Otherwise row 1 takes the header, row [k + 2] takes id, symbol and price
    of the coin at position [k], and every cell outside [A1:C(n+1)] keeps
    its text: rows below the table are not cleared. *)
Theorem write_full_table_cells wks coins :
  match write_full_table wks coins with
  | Ok wks' =>
      length coins + 1 <= row_count wks ∧ 3 <= col_count wks
      ∧ row_count wks' = row_count wks
      ∧ (forall j v, header_row !! j = Some v ->
           cells wks' 1 (j + 1) = store_cell v (cells wks 1 (j + 1)))
      ∧ (forall k c, coins !! k = Some c ->
           cells wks' (k + 2) 1 = store_cell (coin_id c) (cells wks (k + 2) 1)
           ∧ cells wks' (k + 2) 2 = store_cell (JStr (coin_symbol c)) (cells wks (k + 2) 2)
           ∧ cells wks' (k + 2) 3 = store_cell (coin_price c) (cells wks (k + 2) 3))
      ∧ (forall r col, in_range (A1Range 1 1 3 (length coins + 1)) r col = false ->
           cells wks' r col = cells wks r col)
  | Raise e =>
      e = APIError ∧ (row_count wks < length coins + 1 ∨ col_count wks < 3)
  end.
Proof.
  destruct (write_full_table wks coins) as [wks'|e] eqn:Hw;
    unfold write_full_table in Hw; rewrite full_range_rows in Hw.
  - pose proof Hw as Hfit. unfold wks_update in Hfit.
    case_decide as Hgrid; [|done]. clear Hfit.
    destruct (wks_update_frame _ _ _ _ Hw) as (Hrows & _ & Hframe).
    split; [lia|]. split; [lia|]. split; [done|]. split; [|split; [|done]].
    + intros j v Hj. pose proof (lookup_lt_Some _ _ _ Hj) as Hlt. simpl in Hlt.
      eapply (wks_update_written _ _ _ _ _ _ _ 1 (j + 1) header_row v Hw).
      * unfold in_range. rewrite !andb_true_iff, !Nat.leb_le. lia.
      * done.
      * by replace (j + 1 - 1) with j by lia.
    + intros k c Hk. pose proof (lookup_lt_Some _ _ _ Hk) as Hlt.
      assert (Hrow : full_table coins !! (k + 2 - 1) = Some (coin_row c)).
      { replace (k + 2 - 1) with (S k) by lia. unfold full_table. simpl.
        change (map coin_row coins) with (coin_row <$> coins).
        by rewrite list_lookup_fmap, Hk. }
      assert (Hin : forall col, 1 <= col <= 3 ->
                in_range (A1Range 1 1 3 (length coins + 1)) (k + 2) col = true).
      { intros col Hcol. unfold in_range. rewrite !andb_true_iff, !Nat.leb_le. lia. }
      repeat split.
      * by eapply (wks_update_written _ _ _ _ _ _ _ (k + 2) 1 _ _ Hw); [apply Hin; lia|..].
      * by eapply (wks_update_written _ _ _ _ _ _ _ (k + 2) 2 _ _ Hw); [apply Hin; lia|..].
      * by eapply (wks_update_written _ _ _ _ _ _ _ (k + 2) 3 _ _ Hw); [apply Hin; lia|..].
  - unfold wks_update in Hw. case_decide as Hgrid; [done|].
    injection Hw as <-. split; [done|]. lia.
Qed.

Lemma drop_trailing_empty_replicate k : drop_trailing_empty (replicate k "") = [].
Proof. induction k as [|k IH]; simpl; [done|]. by rewrite IH. Qed.

Lemma drop_trailing_empty_filled t k :
  Forall (fun x => x <> "") t ->
  drop_trailing_empty (t ++ replicate k "") = t.
Proof.
  induction 1 as [|x t Hx _ IH]; simpl.
  - apply drop_trailing_empty_replicate.
  - rewrite IH. destruct t; [|done]. by case_decide.
Qed.

(** The text of an id. *)
Lemma id_texts coins :
  Forall (fun c => exists s, coin_id c = JStr s ∧ s <> "") coins ->
  exists ids : list string,
    map JStr ids = map coin_id coins ∧ Forall (fun x => x <> "") ids.
Proof.
  induction 1 as [|c coins (s & Hs & Hne) _ (ids & Hids & Hall)].
  - by exists [].
  - exists (s :: ids). simpl. rewrite Hs, Hids. split; [done|]. by constructor.
Qed.

(** X8: on a store that shows a written string as it is, and a tab whose
    column A is empty below the table, the ids that [write_full_table] has
    written are what [col_values(1)[1:TOTAL_COINS + 1]] reads back, in the
    same order, when they are non-empty strings. *)
Theorem written_ids_read_back wks coins wks' :
  (forall s old, store_cell (JStr s) old = s) ->
  Forall (fun c => exists s, coin_id c = JStr s ∧ s <> "") coins ->
  (forall r, length coins + 1 < r -> cells wks r 1 = "") ->
  write_full_table wks coins = Ok wks' ->
  head (col_values 1 wks') = Some "ID"
  ∧ map JStr (take TOTAL_COINS (drop 1 (col_values 1 wks')))
    = take TOTAL_COINS (map coin_id coins).
Proof.
  intros Hstore Hids Hbelow Hw.
  destruct (id_texts coins Hids) as (ids & Hmap & Hall).
  assert (Hlen : length ids = length coins).
  { by rewrite <- (length_map JStr ids), Hmap, length_map. }
  unfold write_full_table in Hw. rewrite full_range_rows in Hw.
  pose proof Hw as Hfit. unfold wks_update in Hfit.
  case_decide as Hgrid; [|done]. clear Hfit.
  destruct (wks_update_frame _ _ _ _ Hw) as (Hrows & _ & Hframe).
  assert (Hcol : map (fun r => cells wks' r 1) (seq 1 (row_count wks'))
                 = ("ID" :: ids) ++ replicate (row_count wks - (length coins + 1)) "").
  { apply list_eq. intros i.
    change (map ?f ?l) with (f <$> l). rewrite list_lookup_fmap.
    destruct (decide (i < row_count wks')) as [Hi|Hi].
    - rewrite lookup_seq_lt by done.
      assert (Hrange : i < length coins + 1 ->
                in_range (A1Range 1 1 3 (length coins + 1)) (1 + i) 1 = true).
      { intros Hin. unfold in_range. rewrite !andb_true_iff, !Nat.leb_le. lia. }
      destruct i as [|k]; cbn [app lookup list_lookup fmap option_fmap option_map].
      + rewrite (wks_update_written _ _ _ _ _ _ _ (1 + 0) 1 header_row (JStr "ID") Hw);
          [|apply (Hrange ltac:(lia))|done..]. by rewrite Hstore.
      + change ((ids ++ replicate (row_count wks - (length coins + 1)) "") !! k)
          with (list_lookup k (ids ++ replicate (row_count wks - (length coins + 1)) "")).
        fold (lookup k (ids ++ replicate (row_count wks - (length coins + 1)) "")).
        destruct (decide (k < length coins)) as [Hin|Hout].
        * rewrite lookup_app_l by lia.
          assert (is_Some (ids !! k)) as [x Hx] by (apply lookup_lt_is_Some; lia).
          assert (Hc : map coin_id coins !! k = Some (JStr x)).
          { rewrite <- Hmap. change (map ?f ?l) with (f <$> l).
            by rewrite list_lookup_fmap, Hx. }
          change (map ?f ?l) with (f <$> l) in Hc.
          rewrite list_lookup_fmap in Hc.
          destruct (coins !! k) as [c|] eqn:Hk; [|done]. simpl in Hc. injection Hc as Hc.
          rewrite (wks_update_written _ _ _ _ _ _ _ (1 + S k) 1 (coin_row c) (coin_id c) Hw).
          -- by rewrite Hc, Hstore, Hx.
          -- apply Hrange. lia.
          -- replace (1 + S k - 1) with (S k) by lia. unfold full_table. simpl.
             change (map ?f ?l) with (f <$> l). by rewrite list_lookup_fmap, Hk.
          -- done.
        * rewrite lookup_app_r by lia.
          rewrite lookup_replicate_2 by lia.
          rewrite Hframe.
          -- by rewrite Hbelow by lia.
          -- unfold in_range. apply not_true_is_false.
             rewrite !andb_true_iff, !Nat.leb_le. lia.
    - rewrite lookup_seq_ge by lia. symmetry. apply lookup_ge_None.
      rewrite length_app, length_replicate. simpl. lia. }
  assert (Hvalues : col_values 1 wks' = "ID" :: ids).
  { unfold col_values. rewrite Hcol. apply drop_trailing_empty_filled.
    by constructor. }
  rewrite Hvalues. simpl. split; [done|].
  rewrite drop_0, <- firstn_map, Hmap. done.
Qed.

(** ** From one run to the next *)

Lemma sync_initialized_events f w s feed :
  sheet w = Some s ->
  acell_raises f = false ->
  cells s 1 1 = "ID" ->
  Forall refresh_event (sync_trace (sync_to_sheet f w feed)).
Proof.
  intros Hs Hf Ha. rewrite (sync_initialized f w s feed Hs Hf Ha). cbn zeta.
  cbn [sync_trace].
  destruct (update_prices_only_effects w s (frozen_ids_for w s).1 feed Hs) as (Hev & _).
  constructor; [done|]. apply Forall_app. split; [apply frozen_ids_for_events|done].
Qed.

Lemma first_load_done f w wks feed coins wks' :
  outcome_of (fetch_top_coins_with_price feed) = Done coins ->
  coins <> [] ->
  write_full_table wks coins = Ok wks' ->
  let fl := first_load f w wks feed in
  sync_outcome fl = Done tt
  ∧ sync_world fl = save_frozen_coins f (map coin_id coins) (World (Some wks') (frozen_file w)).
Proof.
  intros Hc Hne Hw. cbn zeta. unfold first_load. rewrite Hc.
  destruct coins as [|x coins]; [done|]. by rewrite Hw.
Qed.

(** X9: on a store that shows a written string as it is, a first load that
    gets some coins and whose write is accepted leaves "ID" in A1; the next
    run that can read A1 is therefore a price refresh: it asks for no
    ranked page, adds no tab, saves no cache and writes to column C only. *)
Theorem first_load_initializes f1 f2 w feed1 feed2 coins wks' :
  (forall s old, store_cell (JStr s) old = s) ->
  read_header f1 (ensure_worksheet w).1 <> Some "ID" ->
  outcome_of (fetch_top_coins_with_price feed1) = Done coins ->
  coins <> [] ->
  write_full_table (ensure_worksheet w).1 coins = Ok wks' ->
  acell_raises f2 = false ->
  let r1 := sync_to_sheet f1 w feed1 in
  let r2 := sync_to_sheet f2 (sync_world r1) feed2 in
  sync_outcome r1 = Done tt
  ∧ sheet (sync_world r1) = Some wks'
  ∧ read_header f2 wks' = Some "ID"
  ∧ Forall refresh_event (sync_trace r2).
Proof.
  intros Hstore Hh Hc Hne Hw Hf2 r1 r2.
  assert (Ha : cells wks' 1 1 = "ID").
  { pose proof Hw as Hw'. unfold write_full_table in Hw'. rewrite full_range_rows in Hw'.
    rewrite (wks_update_written _ _ _ _ _ _ _ 1 1 header_row (JStr "ID") Hw');
      [apply Hstore| |done..].
    unfold in_range. rewrite !andb_true_iff, !Nat.leb_le. lia. }
  destruct (first_load_done f1 (World (Some (ensure_worksheet w).1) (frozen_file w))
              (ensure_worksheet w).1 feed1 coins wks' Hc Hne Hw) as [Ho Hworld].
  assert (Hs1 : sheet (sync_world r1) = Some wks').
  { subst r1. rewrite (sync_uninitialized f1 w feed1 Hh). cbn zeta.
    cbn [sync_world]. rewrite Hworld. unfold save_frozen_coins.
    by destruct (save_raises f1), (save_truncates f1). }
  split.
  { subst r1. by rewrite (sync_uninitialized f1 w feed1 Hh). }
  split; [done|]. split.
  { unfold read_header. rewrite Hf2, Ha. done. }
  by apply (sync_initialized_events f2 (sync_world r1) wks' feed2).
Qed.

(** X10: a sync that does not return normally (an exception leaves it, or
    it is still waiting for the feed) has written nothing: the cache file
    and every cell are as before, the only possible change being the empty
    tab created at the start. *)
Theorem unfinished_sync_changes_nothing f w feed :
  let r := sync_to_sheet f w feed in
  sync_outcome r <> Done tt ->
  sync_world r = World (Some (ensure_worksheet w).1) (frozen_file w)
  ∧ (is_Some (sheet w) -> sync_world r = w).
Proof.
  intros r Hnot.
  assert (Hw : sync_world r = World (Some (ensure_worksheet w).1) (frozen_file w)).
  { subst r. revert Hnot. unfold sync_to_sheet.
    destruct (ensure_worksheet w) as [wks made]. cbn [fst].
    case_decide; cbn [sync_outcome sync_world].
    - unfold later_load. destruct (frozen_ids_for _ wks) as [ids evs].
      cbn [sync_outcome sync_world]. unfold update_prices_only.
      destruct (outcome_of (refresh_prices ids feed)) as [prices|e|]; [|done..].
      by destruct (wks_update prices _ wks).
    - unfold first_load.
      destruct (outcome_of (fetch_top_coins_with_price feed)) as [[|x coins]|e|];
        [done| |done..].
      by destruct (write_full_table wks (x :: coins)). }
  split; [done|]. intros [s Hs]. rewrite Hw. unfold ensure_worksheet. rewrite Hs.
  destruct w; simpl in *. by subst.
Qed.

Lemma first_load_adds_no_tab f w wks feed rows cols :
  AddWorksheet rows cols ∉ sync_trace (first_load f w wks feed).
Proof.
  intros Hin.
  assert (Hp : AddWorksheet rows cols ∉ trace (fetch_top_coins_with_price feed)).
  { intros H. pose proof (fetch_events feed) as Hev.
    rewrite Forall_forall in Hev. by apply Hev in H. }
  revert Hin. unfold first_load.
  destruct (outcome_of (fetch_top_coins_with_price feed)) as [[|x coins]|e|]; try done.
  destruct (write_full_table wks (x :: coins)); cbn [sync_trace];
    rewrite ?elem_of_app, ?list_elem_of_singleton; intros H;
    repeat (destruct H as [H|H]; try done).
Qed.

(** X11: after any run the tab exists, and a tab is only ever added by a
    run that found none, with [TOTAL_COINS + 1] rows and 3 columns; so no
    run that follows another adds a tab. *)
Theorem tab_is_made_once f w feed :
  let r := sync_to_sheet f w feed in
  is_Some (sheet (sync_world r))
  ∧ (forall rows cols, AddWorksheet rows cols ∈ sync_trace r ->
       sheet w = None ∧ rows = TOTAL_COINS + 1 ∧ cols = 3)
  ∧ (forall f' feed' rows cols,
       AddWorksheet rows cols ∉ sync_trace (sync_to_sheet f' (sync_world r) feed')).
Proof.
  assert (Hsome : forall f w feed, is_Some (sheet (sync_world (sync_to_sheet f w feed)))).
  { clear. intros f w feed. unfold sync_to_sheet.
    destruct (ensure_worksheet w) as [wks made].
    case_decide; cbn [sync_world].
    - unfold later_load. destruct (frozen_ids_for _ wks) as [ids evs].
      cbn [sync_world].
      destruct (update_prices_only_effects (World (Some wks) (frozen_file w)) wks ids feed
                  eq_refl) as (_ & _ & _ & wks' & Hs & _).
      by rewrite Hs.
    - unfold first_load.
      destruct (outcome_of (fetch_top_coins_with_price feed)) as [[|x coins]|e|];
        try done.
      destruct (write_full_table wks (x :: coins)); cbn [sync_world]; [|done].
      unfold save_frozen_coins. by destruct (save_raises f), (save_truncates f). }
  assert (Hadd : forall f w feed rows cols,
            AddWorksheet rows cols ∈ sync_trace (sync_to_sheet f w feed) ->
            sheet w = None ∧ rows = TOTAL_COINS + 1 ∧ cols = 3).
  { clear. intros f w feed rows cols. unfold sync_to_sheet, ensure_worksheet.
    destruct (sheet w) as [s|] eqn:Hs; cbn [sync_trace app].
    - intros [[=]|H]%elem_of_cons. exfalso. revert H.
      case_decide as Hh.
      + unfold later_load. destruct (frozen_ids_for _ s) as [ids evs] eqn:Hids.
        cbn [sync_trace]. intros [H|H]%elem_of_app.
        * pose proof (frozen_ids_for_events (World (Some s) (frozen_file w)) s) as Hev.
          rewrite Hids in Hev. rewrite Forall_forall in Hev. by apply Hev in H.
        * destruct (update_prices_only_effects (World (Some s) (frozen_file w)) s ids feed
                      eq_refl) as (Hev & _).
          rewrite Forall_forall in Hev. by apply Hev in H.
      + apply first_load_adds_no_tab.
    - intros [[= -> ->]|H]%elem_of_cons; [done|]. exfalso.
      apply elem_of_cons in H as [[=]|H]. revert H.
      case_decide as Hh; [|apply first_load_adds_no_tab].
      unfold later_load. destruct (frozen_ids_for _ _) as [ids evs] eqn:Hids.
      cbn [sync_trace]. intros [H|H]%elem_of_app.
      + match type of Hids with frozen_ids_for ?w0 ?s0 = _ =>
          pose proof (frozen_ids_for_events w0 s0) as Hev end.
        rewrite Hids in Hev. rewrite Forall_forall in Hev. by apply Hev in H.
      + match type of H with _ ∈ sync_trace (update_prices_only ?w0 ?s0 _ _) =>
          destruct (update_prices_only_effects w0 s0 ids feed eq_refl) as (Hev & _) end.
        rewrite Forall_forall in Hev. by apply Hev in H. }
  intros r. split; [apply Hsome|]. split; [apply Hadd|].
  intros f' feed' rows cols Hin. apply Hadd in Hin as [Hnone _].
  destruct (Hsome f w feed) as [s Hs]. fold r in Hs. congruence.
Qed.

(** X12: after a first load that gets at least [TOTAL_COINS] coins and
    whose write and save succeed, the ids the next run loads from the cache
    are the ids of the first [TOTAL_COINS] rows of the table, in row
    order. *)
Theorem cached_ids_follow_rows f w feed coins wks' :
  0 < TOTAL_COINS ->
  save_raises f = false ->
  read_header f (ensure_worksheet w).1 <> Some "ID" ->
  outcome_of (fetch_top_coins_with_price feed) = Done coins ->
  TOTAL_COINS <= length coins ->
  write_full_table (ensure_worksheet w).1 coins = Ok wks' ->
  let r := sync_to_sheet f w feed in
  frozen_file (sync_world r) = Some (Some (JList (map coin_id coins)))
  ∧ (frozen_ids_for (sync_world r) wks').1 = take TOTAL_COINS (map coin_id coins)
  ∧ (forall k c, coins !! k = Some c ->
       cells wks' (k + 2) 1 = store_cell (coin_id c) (cells (ensure_worksheet w).1 (k + 2) 1)).
Proof.
  intros Hpos Hsave Hh Hc Hlen Hw r.
  assert (Hne : coins <> []) by (destruct coins; simpl in *; [lia|done]).
  destruct (first_load_done f (World (Some (ensure_worksheet w).1) (frozen_file w))
              (ensure_worksheet w).1 feed coins wks' Hc Hne Hw) as [Ho Hworld].
  assert (Hr : sync_world r
               = World (Some wks') (Some (Some (JList (map coin_id coins))))).
  { subst r. rewrite (sync_uninitialized f w feed Hh). cbn zeta.
    cbn [sync_world]. rewrite Hworld. unfold save_frozen_coins. by rewrite Hsave. }
  rewrite Hr. split; [done|]. split.
  - unfold frozen_ids_for, load_frozen_coins. cbn [frozen_file].
    rewrite length_map. case_decide; [|lia].
    destruct (take TOTAL_COINS (map coin_id coins)) as [|x t] eqn:Ht; [|done].
    apply (f_equal length) in Ht. rewrite length_take, length_map in Ht.
    simpl in Ht. lia.
  - intros k c Hk. pose proof (lookup_lt_Some _ _ _ Hk) as Hlt.
    unfold write_full_table in Hw. rewrite full_range_rows in Hw.
    eapply (wks_update_written _ _ _ _ _ _ _ (k + 2) 1 (coin_row c) _ Hw); [| |done].
    + unfold in_range. rewrite !andb_true_iff, !Nat.leb_le. lia.
    + replace (k + 2 - 1) with (S k) by lia. unfold full_table. simpl.
      change (map ?f ?l) with (f <$> l). by rewrite list_lookup_fmap, Hk.
Qed.

(** ** The refresh *)

Lemma chunks_concat (ids : list json) q : forall k,
  concat (map (fun i => take PER_PAGE (drop i ids))
            (map (fun k => k * PER_PAGE) (seq k q)))
  = take (q * PER_PAGE) (drop (k * PER_PAGE) ids).
Proof.
  induction q as [|q IH]; intros k; [done|].
  cbn [seq map concat]. rewrite IH.
  replace (S k * PER_PAGE) with (k * PER_PAGE + PER_PAGE) by lia.
  replace (S q * PER_PAGE) with (PER_PAGE + q * PER_PAGE) by lia.
  rewrite <- drop_drop. apply take_take_drop.
Qed.

Lemma batches_concat (ids : list json) :
  0 < PER_PAGE ->
  concat (map (fun i => take PER_PAGE (drop i ids)) (batch_starts (length ids))) = ids.
Proof.
  intros Hpos. pose proof (batches_cover (length ids) Hpos) as Hcov.
  unfold batch_starts. rewrite chunks_concat. simpl. rewrite drop_0.
  by apply take_ge.
Qed.

(** X13: the batches of a refresh are consecutive pieces of the id list that
    put together give the list back: every id is asked for in exactly one
    batch, no batch is empty and none has more than [PER_PAGE] ids. *)
Theorem batches_partition_ids (ids : list json) :
  0 < PER_PAGE ->
  concat (map (fun i => take PER_PAGE (drop i ids)) (batch_starts (length ids))) = ids
  ∧ Forall (fun i => 0 < length (take PER_PAGE (drop i ids)) <= PER_PAGE)
      (batch_starts (length ids)).
Proof.
  intros Hpos. split; [by apply batches_concat|].
  pose proof (batches_cover (length ids) Hpos) as Hcov.
  apply Forall_forall. intros i Hi. unfold batch_starts in Hi.
  change (map ?f ?l) with (f <$> l) in Hi.
  apply list_elem_of_fmap in Hi as (k & -> & Hk). apply elem_of_seq in Hk.
  rewrite length_take, length_drop.
  pose proof (Nat.div_mod_eq (length ids + PER_PAGE - 1) PER_PAGE).
  pose proof (Nat.mod_upper_bound (length ids + PER_PAGE - 1) PER_PAGE ltac:(lia)).
  nia.
Qed.

Lemma py_strs_ok l ss : py_strs l = Ok ss -> l = map JStr ss.
Proof.
  revert ss. induction l as [|x l IH]; intros ss; simpl.
  - by intros [= <-].
  - destruct x; try done. destruct (py_strs l) as [ss'|]; simpl; [|done].
    intros [= <-]. simpl. by rewrite (IH ss').
Qed.

Lemma refresh_batches_done_joined starts : forall (ids : list json) prices feed out,
  outcome_of (refresh_batches starts ids prices feed) = Done out ->
  Forall (fun i => exists ss, take PER_PAGE (drop i ids) = map JStr ss) starts.
Proof.
  induction starts as [|i starts IH]; intros ids prices feed out;
    cbn [refresh_batches]; [constructor|].
  unfold py_join.
  destruct (py_strs (take PER_PAGE (drop i ids))) as [ss|] eqn:Hss; simpl; [|done].
  destruct (outcome_of (request_batch _ feed)) as [data|e|]; try done.
  destruct (price_map data) as [m|]; [|done].
  cbn [after outcome_of]. intros H%IH. constructor; [|done].
  exists ss. by apply py_strs_ok.
Qed.

(** X14: an id that is not a string, anywhere in the list, keeps the
    refresh from ever returning, whatever the feed answers: the join of its
    batch raises, so [update_prices_only] writes nothing. *)
Theorem non_string_id_stops_refresh w wks ids feed x :
  0 < PER_PAGE ->
  x ∈ ids ->
  (forall s, x <> JStr s) ->
  let r := update_prices_only w wks ids feed in
  sync_outcome r <> Done tt
  ∧ sync_world r = w
  ∧ (forall values rg, Update values rg ∉ sync_trace r).
Proof.
  intros Hpos Hx Hns r.
  assert (Hnot : forall prices, outcome_of (refresh_prices ids feed) <> Done prices).
  { intros prices H. apply refresh_batches_done_joined in H.
    rewrite <- (batches_concat ids Hpos) in Hx. apply list_elem_of_In, in_concat in Hx as (chunk & Hc & Hin).
    apply in_map_iff in Hc as (i & <- & Hi).
    rewrite Forall_forall in H. apply list_elem_of_In, H in Hi as [ss Hss].
    rewrite Hss in Hin. apply in_map_iff in Hin as (s & <- & _). by apply (Hns s). }
  subst r. unfold update_prices_only.
  pose proof (refresh_batches_events (batch_starts (length ids)) ids [] feed) as Hev.
  fold (refresh_prices ids feed) in Hev.
  destruct (outcome_of (refresh_prices ids feed)) as [prices|e|] eqn:Ho;
    [by destruct (Hnot prices)|..]; cbn [sync_outcome sync_world sync_trace];
    (split; [done|]); (split; [done|]); intros values rg Hin;
    rewrite Forall_forall in Hev; by apply Hev in Hin.
Qed.

Lemma unusable_body_raises data : unusable_body data -> price_map data = Raise TypeError.
Proof.
  destruct data as [| | |s|l|kv]; simpl; try done.
  - destruct s; [done|]. by intros _.
  - destruct kv as [|[k v] kv]; [done|]. by intros _.
Qed.

(** X15: the batch loop hands on any body of a response without an error
    status.  One that is no list of records (null, a number, a boolean, an
    object such as an error report, a string) makes the refresh raise a
    TypeError while the price map is built; nothing is written.  The
    collector, given the same object or string as a page, waits and asks
    again. *)
Theorem unusable_body_raises_in_refresh w wks (strs : list string) pre data rest :
  0 < PER_PAGE ->
  strs <> [] ->
  Forall (fun r => batch_retried r = true) pre ->
  unusable_body data ->
  let r := update_prices_only w wks (map JStr strs) (pre ++ Body data :: rest) in
  sync_outcome r = Raised TypeError
  ∧ sync_world r = w
  ∧ sync_unread r = rest
  ∧ (is_Some (py_len data) -> page_retried (Body data) = true).
Proof.
  intros Hpos Hne Hpre Hbad r.
  assert (Hrun : exists tr,
            refresh_prices (map JStr strs) (pre ++ Body data :: rest)
            = Run (Raised TypeError) tr rest).
  { unfold refresh_prices, batch_starts. rewrite length_map.
    assert (Hq : exists q, (length strs + PER_PAGE - 1) / PER_PAGE = S q).
    { destruct strs as [|x strs]; [done|]. simpl.
      destruct ((S (length strs) + PER_PAGE - 1) / PER_PAGE) as [|q] eqn:Hd; [|by eexists].
      apply Nat.div_small_iff in Hd; lia. }
    destruct Hq as [q ->].
    change (map (fun k => k * PER_PAGE) (seq 0 (S q)))
      with (0 :: map (fun k => k * PER_PAGE) (seq 1 q)).
    cbn [refresh_batches].
    rewrite skipn_map, firstn_map, py_join_strings.
    rewrite request_batch_retries by done.
    rewrite (request_batch_final _ (Body data) rest data eq_refl).
    cbn [after outcome_of trace unread].
    rewrite (unusable_body_raises data Hbad). by eexists. }
  destruct Hrun as [tr Hrun]. subst r. unfold update_prices_only. rewrite Hrun.
  cbn [outcome_of sync_outcome sync_world sync_unread unread].
  split; [done|]. split; [done|]. split; [done|].
  intros [n Hn]. destruct data; simpl in *; try done;
    apply bool_decide_eq_true; by eexists.
Qed.

Lemma returned_price_none cs s :
  (forall c, c ∈ cs -> py_getitem c "id" <> Ok (JStr s)) -> returned_price cs s = None.
Proof.
  induction cs as [|c cs IH]; intros H; simpl; [done|].
  rewrite IH by (intros c' Hc'; apply H; by right).
  unfold record_price.
  destruct (py_getitem c "id") as [[| | |s'| |]|] eqn:Hid; try done.
  destruct (py_getitem c "current_price"); [|done].
  case_decide; [|done]. subst. exfalso. by apply (H c); [left|].
Qed.

(** X16: in the price map built from a list of records, an id that no
    record carries has no entry (its row gets the empty string), and an id
    that several records carry has the price of the last of them. *)
Theorem price_map_prefers_last cs m :
  price_map (JList cs) = Ok m ->
  (forall s, (forall c, c ∈ cs -> py_getitem c "id" <> Ok (JStr s)) ->
     m !! s = None ∧ price_get m (JStr s) = JStr "")
  ∧ (forall cs1 c cs2 s p,
       cs = cs1 ++ c :: cs2 ->
       py_getitem c "id" = Ok (JStr s) ->
       py_getitem c "current_price" = Ok p ->
       (forall c', c' ∈ cs2 -> py_getitem c' "id" <> Ok (JStr s)) ->
       m !! s = Some p ∧ price_get m (JStr s) = p).
Proof.
  intros Hm.
  assert (Hlook : forall s, m !! s = returned_price cs s).
  { intros s. by apply (price_map_lookup (JList cs) cs m s). }
  split.
  - intros s Hno. assert (m !! s = None) as Hn by (by rewrite Hlook, returned_price_none).
    split; [done|]. unfold price_get. by rewrite Hn.
  - intros cs1 c cs2 s p -> Hid Hp Hno.
    assert (m !! s = Some p) as Hs.
    { rewrite Hlook. clear Hm Hlook. induction cs1 as [|c1 cs1 IH]; simpl.
      - rewrite returned_price_none by done. unfold record_price.
        rewrite Hid, Hp. by case_decide.
      - by rewrite IH. }
    split; [done|]. unfold price_get. by rewrite Hs.
Qed.

(** X17: on a tab that holds the header and nothing below it in column A,
    with no usable cache, a later run asks the feed nothing: it issues one
    write of no rows and leaves every cell as it was. *)
Theorem header_only_tab_refreshes_nothing f w s feed :
  sheet w = Some s ->
  acell_raises f = false ->
  cells s 1 1 = "ID" ->
  load_frozen_coins w = None ->
  drop 1 (col_values 1 s) = [] ->
  let r := sync_to_sheet f w feed in
  sync_trace r = [ReadA1; LoadFrozen; ColValues 1; Update [] (A1Range 3 2 3 1)]
  ∧ sync_unread r = feed
  ∧ frozen_file (sync_world r) = frozen_file w
  ∧ exists s', sheet (sync_world r) = Some s'
      ∧ forall row col, cells s' row col = cells s row col.
Proof.
  intros Hs Hf Ha Hload Hcol r. subst r.
  rewrite (sync_initialized f w s feed Hs Hf Ha). cbn zeta.
  unfold frozen_ids_for. rewrite Hload, Hcol, take_nil. cbn [fst snd map].
  unfold update_prices_only, refresh_prices, batch_starts. simpl length.
  replace ((0 + PER_PAGE - 1) / PER_PAGE) with 0.
  2:{ destruct PER_PAGE as [|n]; [done|]. symmetry. apply Nat.div_small. lia. }
  cbn [seq map refresh_batches outcome_of trace unread app].
  destruct (wks_update [] (price_range 0) s) as [s'|e] eqn:Hw;
    cbn [sync_trace sync_unread sync_world frozen_file sheet].
  - repeat split. exists s'. split; [done|]. intros row col.
    destruct (wks_update_frame _ _ _ _ Hw) as (_ & _ & Hframe).
    apply Hframe. apply not_true_is_false. rewrite in_price_range. lia.
  - repeat split. exists s. by rewrite Hs.
Qed.

Lemma rows_of_finals s1 : forall s2 (ids : list string),
  map b_final s1 = map b_final s2 -> rows_of ids s1 = rows_of ids s2.
Proof.
  induction s1 as [|e1 s1 IH]; intros [|e2 s2] ids; simpl; try done.
  intros [= Hfin Hrest]. f_equal; [|by apply IH].
  apply map_ext. intros id. unfold batch_price. by rewrite Hfin.
Qed.

(** X18: waiting and asking again leaves no mark on the refreshed prices:
    two feeds that answer every batch in the end with the same response,
    after whatever 429s and failed requests, give the same rows. *)
Theorem retries_do_not_change_the_prices (ids : list string) s1 s2 rest1 rest2 :
  map b_final s1 = map b_final s2 ->
  length s1 = length (batch_starts (length ids)) ->
  Forall batch_script_ok s1 ->
  Forall batch_script_ok s2 ->
  exists prices,
    outcome_of (refresh_prices (map JStr ids) (batches_feed s1 ++ rest1)) = Done prices
    ∧ outcome_of (refresh_prices (map JStr ids) (batches_feed s2 ++ rest2)) = Done prices.
Proof.
  intros Hfin Hn Hok1 Hok2.
  assert (Hn2 : length s2 = length s1).
  { by rewrite <- (length_map b_final s2), <- Hfin, length_map. }
  exists (rows_of ids s1).
  unfold refresh_prices, batch_starts in *. rewrite length_map in *.
  rewrite length_seq in Hn.
  destruct (refresh_batches_script s1 0 ids [] rest1 Hok1) as [Ho1 _].
  destruct (refresh_batches_script s2 0 ids [] rest2 Hok2) as [Ho2 _].
  cbn zeta in Ho1, Ho2. rewrite Hn2, Hn in Ho2. rewrite Hn in Ho1.
  rewrite Ho1, Ho2. simpl. split; [done|].
  by rewrite (rows_of_finals s1 s2 ids Hfin).
Qed.

Lemma price_entry_ok m m' c x :
  price_entry m c = Ok x -> exists x', price_entry m' c = Ok x'.
Proof.
  unfold price_entry.
  destruct (py_getitem c "id") as [k|]; simpl; [|done].
  destruct (py_getitem c "current_price") as [v|]; simpl; [|done].
  destruct (py_hashable k); [|done]. by eexists.
Qed.

Lemma price_entries_ok cs : forall m0 m,
  price_entries m0 cs = Ok m -> Forall (fun c => exists x, price_entry ∅ c = Ok x) cs.
Proof.
  induction cs as [|c cs IH]; intros m0 m; simpl; [constructor|].
  destruct (price_entry m0 c) as [m1|] eqn:Hc; simpl; [|done].
  intros H. constructor; [by eapply price_entry_ok|by eapply IH].
Qed.

Lemma price_entries_total cs : forall m0,
  Forall (fun c => exists x, price_entry ∅ c = Ok x) cs ->
  exists m, price_entries m0 cs = Ok m.
Proof.
  induction cs as [|c cs IH]; intros m0 Hall; simpl; [by eexists|].
  apply Forall_cons in Hall as [[x Hx] Hall].
  destruct (price_entry_ok ∅ m0 c x Hx) as [m1 ->]. simpl. by apply IH.
Qed.

Lemma record_price_key c s p : record_price c s = Some p -> record_key c = Some s.
Proof.
  unfold record_price, record_key.
  destruct (py_getitem c "id") as [[| | |s'| |]|]; try done.
  destruct (py_getitem c "current_price"); [|done].
  case_decide; [|done]. by subst.
Qed.

Lemma returned_price_perm cs cs' s :
  cs ≡ₚ cs' ->
  NoDup (omap record_key cs) ->
  returned_price cs s = returned_price cs' s.
Proof.
  induction 1 as [|x l l' Hp IH|x y l|l1 l2 l3 Hp1 IH1 Hp2 IH2]; intros Hnd.
  - done.
  - simpl. rewrite IH; [done|]. simpl in Hnd.
    destruct (record_key x); [by apply NoDup_cons in Hnd as [_ ?]|done].
  - simpl. destruct (returned_price l s) as [p|] eqn:Hl; [done|].
    destruct (record_price x s) as [px|] eqn:Hx, (record_price y s) as [py|] eqn:Hy;
      try done.
    apply record_price_key in Hx, Hy. simpl in Hnd. rewrite Hy, Hx in Hnd.
    apply NoDup_cons in Hnd as [Hnot _]. exfalso. apply Hnot. by left.
  - rewrite IH1 by done. apply IH2. by rewrite <- Hp1.
Qed.

(** X19: the order in which an answer lists its records does not matter
    to the prices looked up: when no two records carry the same string id,
    the price map can be built from any reordering of the answer too, and
    [price_map.get(s, "")] gives the same for every string [s], hence the
    same rows. *)
Theorem answer_order_does_not_matter cs cs' m :
  cs ≡ₚ cs' ->
  NoDup (omap record_key cs) ->
  price_map (JList cs) = Ok m ->
  exists m',
    price_map (JList cs') = Ok m'
    ∧ forall s, price_get m' (JStr s) = price_get m (JStr s).
Proof.
  intros Hperm Hnd Hm.
  assert (Hall : Forall (fun c => exists x, price_entry ∅ c = Ok x) cs').
  { rewrite <- Hperm. unfold price_map in Hm. simpl in Hm. by eapply price_entries_ok. }
  destruct (price_entries_total cs' ∅ Hall) as [m' Hm'].
  exists m'. split; [done|]. intros s. unfold price_get.
  rewrite (price_map_lookup (JList cs') cs' m' s eq_refl Hm').
  rewrite (price_map_lookup (JList cs) cs m s eq_refl Hm).
  by rewrite (returned_price_perm cs cs' s Hperm Hnd).
Qed.

(** ** More on failures and contents *)

(** X20: a save that fails is not an error of the run: the first load
    still returns normally with the table written.  The cache file is as it
    was when it could not be opened; when the dump broke off it is left
    unreadable and [load_frozen_coins] answers [None].  Either way the cache
    never yields ids it did not yield before. *)
Theorem failed_save_keeps_the_table f w feed coins wks' :
  save_raises f = true ->
  read_header f (ensure_worksheet w).1 <> Some "ID" ->
  outcome_of (fetch_top_coins_with_price feed) = Done coins ->
  coins <> [] ->
  write_full_table (ensure_worksheet w).1 coins = Ok wks' ->
  let r := sync_to_sheet f w feed in
  sync_outcome r = Done tt
  ∧ sheet (sync_world r) = Some wks'
  ∧ (save_truncates f = false -> frozen_file (sync_world r) = frozen_file w)
  ∧ (save_truncates f = true -> load_frozen_coins (sync_world r) = None)
  ∧ (forall ids, load_frozen_coins (sync_world r) = Some ids ->
       load_frozen_coins w = Some ids).
Proof.
  intros Hsave Hh Hc Hne Hw r.
  destruct (first_load_done f (World (Some (ensure_worksheet w).1) (frozen_file w))
              (ensure_worksheet w).1 feed coins wks' Hc Hne Hw) as [Ho Hworld].
  assert (Hr : sync_world r
               = if save_truncates f then World (Some wks') (Some None)
                 else World (Some wks') (frozen_file w)).
  { subst r. rewrite (sync_uninitialized f w feed Hh). cbn zeta.
    cbn [sync_world]. rewrite Hworld. unfold save_frozen_coins. rewrite Hsave.
    by destruct (save_truncates f). }
  split.
  { subst r. by rewrite (sync_uninitialized f w feed Hh). }
  rewrite Hr. destruct (save_truncates f); simpl; repeat split; try done.
Qed.

Local Abbreviation built_from := (built_from str_upper).

Lemma coins_of_built data : forall cs,
  coins_of data = Ok cs -> Forall2 built_from data cs.
Proof.
  induction data as [|c data IH]; intros cs; simpl.
  - intros [= <-]. constructor.
  - destruct (coin_of str_upper c) as [x|] eqn:Hx; simpl; [|done].
    destruct (coins_of data) as [xs|]; simpl; [|done].
    intros [= <-]. constructor; [|by apply IH].
    unfold coin_of in Hx.
    destruct (py_getitem c "id") as [i|] eqn:Hi; simpl in Hx; [|done].
    destruct (py_getitem c "symbol") as [sy|] eqn:Hsy; simpl in Hx; [|done].
    destruct sy as [| | |sym| |]; simpl in Hx; try done.
    destruct (py_getitem c "current_price") as [pr|] eqn:Hpr; simpl in Hx; [|done].
    injection Hx as <-. unfold built_from. simpl.
    split; [done|]. split; [by exists sym|done].
Qed.

(** X21: the coins of a collection that gets through all its pages are
    built record by record from the first [TOTAL_COINS] records of the
    accepted pages, in feed order: the id and the price are those of the
    record (a null price stays null), the symbol is the record's in upper
    case. *)
Theorem collection_follows_the_records script cs rest :
  length script = PAGES ->
  Forall page_script_ok script ->
  coins_of (pages_records script) = Ok cs ->
  exists items,
    outcome_of (fetch_top_coins_with_price (pages_feed script ++ rest)) = Done items
    ∧ Forall2 built_from (take TOTAL_COINS (pages_records script)) items.
Proof.
  intros Hn Hok Hcs. exists (take TOTAL_COINS cs).
  rewrite (fetch_script script cs rest Hn Hok Hcs). split; [done|].
  apply Forall2_take. by apply coins_of_built.
Qed.

(** X22: neither retry loop has a cap: as long as the feed answers with
    429s, failed requests (and, for a page, short or non-list bodies that
    have a length) the collector stays on page 1 and the refresh on its
    first batch, each having slept 60 seconds once per answer. *)
Theorem retry_loops_have_no_cap (strs : list string) feed :
  0 < PER_PAGE ->
  (PER_PAGE <= TOTAL_COINS ->
   Forall (fun r => page_retried r = true) feed ->
   fetch_top_coins_with_price feed
   = Run Waiting (backoff (GetPage 1) (length feed)) [])
  ∧ (strs <> [] ->
     Forall (fun r => batch_retried r = true) feed ->
     refresh_prices (map JStr strs) feed
     = Run Waiting
         (backoff (GetIds (String.concat "," (take PER_PAGE strs))) (length feed)) []).
Proof.
  intros Hpos. split.
  - intros Hle Hfeed. unfold fetch_top_coins_with_price.
    assert (Hq : exists q, PAGES = S q).
    { rewrite PAGES_eq. destruct (TOTAL_COINS / PER_PAGE) as [|q] eqn:Hd; [|by eexists].
      apply Nat.div_small_iff in Hd; lia. }
    destruct Hq as [q ->].
    change (seq 1 (S q)) with (1 :: seq 2 q). cbn [collect_pages].
    pose proof (request_page_retries 1 feed [] Hfeed) as Hr.
    rewrite app_nil_r in Hr. rewrite Hr. simpl. by rewrite app_nil_r.
  - intros Hne Hfeed. unfold refresh_prices, batch_starts. rewrite length_map.
    assert (Hq : exists q, (length strs + PER_PAGE - 1) / PER_PAGE = S q).
    { destruct strs as [|x strs]; [done|]. simpl.
      destruct ((S (length strs) + PER_PAGE - 1) / PER_PAGE) as [|q] eqn:Hd; [|by eexists].
      apply Nat.div_small_iff in Hd; lia. }
    destruct Hq as [q ->].
    change (map (fun k => k * PER_PAGE) (seq 0 (S q)))
      with (0 :: map (fun k => k * PER_PAGE) (seq 1 q)).
    cbn [refresh_batches].
    rewrite skipn_map, firstn_map, py_join_strings.
    rewrite drop_0.
    pose proof (request_batch_retries (String.concat "," (take PER_PAGE strs)) feed []
                  Hfeed) as Hr.
    rewrite app_nil_r in Hr. rewrite Hr. simpl. by rewrite app_nil_r.
Qed.

End Properties.

(** * Runs on concrete feeds *)

Lemma fatal_status_ends_collection_witness :
  let r := fetch_top_coins_with_price 2 4 upper
             (pages_feed [PageScript [HttpError 429] [bitcoin; ether]]
                ++ [RequestFailed] ++ HttpError 500 :: [Body JNull]) in
  outcome_of r = Done (take 2 four_coins)
  ∧ trace r = pages_trace 1 [PageScript [HttpError 429] [bitcoin; ether]]
                ++ backoff (GetPage 2) 1 ++ [GetPage 2]
  ∧ unread r = [Body JNull]
  ∧ (forall p, GetPage p ∈ trace r -> p <= 2).
Proof.
  apply (fatal_status_ends_collection 2 4 upper
           [PageScript [HttpError 429] [bitcoin; ether]] _ [RequestFailed] 500 [Body JNull]).
  - repeat constructor.
  - reflexivity.
  - vm_compute. lia.
  - repeat constructor.
  - lia.
Defined.

Lemma full_collection_length_and_ids_witness :
  exists items,
    fetch_top_coins_with_price 2 4 upper (pages_feed two_pages ++ [])
      = Run (Done items) (pages_trace 1 two_pages) []
    ∧ length items = 4
    ∧ items = take 4 four_coins
    ∧ (NoDup (map coin_id four_coins) -> NoDup (map coin_id items)).
Proof.
  apply (full_collection_length_and_ids 2 4 upper two_pages four_coins).
  - reflexivity.
  - reflexivity.
  - repeat constructor.
  - reflexivity.
Defined.

(** C4, as stated, fails: with the constants of [main.py], a feed that
    answers all eight pages with the same records lets the collection get
    through every page, and the 2000 coins returned all carry one id. *)
Lemma repeated_page_repeats_ids :
  exists items,
    fetch_top_coins_with_price Source.PER_PAGE Source.TOTAL_COINS upper repeated_feed
      = Run (Done items) (pages_trace 1 repeated_script) []
    ∧ length items = Source.TOTAL_COINS
    ∧ ¬ NoDup (map coin_id items).
Proof.
  exists (replicate 2000 bitcoin_coin). split; [|split].
  - vm_compute. reflexivity.
  - apply length_replicate.
  - change (replicate 2000 bitcoin_coin)
      with (bitcoin_coin :: bitcoin_coin :: replicate 1998 bitcoin_coin).
    intros H. apply NoDup_cons in H as [H _]. apply H. by left.
Qed.

Lemma full_collection_drops_remainder_witness :
  exists items,
    fetch_top_coins_with_price 2 5 upper (pages_feed two_pages ++ [])
      = Run (Done items) (pages_trace 1 two_pages) []
    ∧ PAGES 2 5 * 2 <= length items <= 5
    ∧ (Forall (fun e => length (records e) = 2) two_pages ->
       length items = PAGES 2 5 * 2 ∧ length items < 5).
Proof.
  apply (full_collection_drops_remainder 2 5 upper two_pages four_coins).
  - lia.
  - vm_compute. lia.
  - reflexivity.
  - repeat constructor.
  - reflexivity.
Defined.

(** C7, as stated, fails: with 5 coins wanted and 2 asked for per page, a
    feed that answers both pages with three records lets the collection get
    through every page and return 5 coins, not 2 * 2. *)
Lemma wide_pages_fill_the_remainder :
  5 mod 2 <> 0
  ∧ exists items,
      fetch_top_coins_with_price 2 5 upper wide_feed
        = Run (Done items) [GetPage 1; Sleep 20; GetPage 2; Sleep 20] []
      ∧ length items = 5
      ∧ length items <> PAGES 2 5 * 2.
Proof.
  split; [vm_compute; lia|].
  eexists. split; [vm_compute; reflexivity|]. split; [reflexivity|].
  vm_compute. lia.
Qed.

(** C6: with the constants of [main.py], a first page of 2001 records is
    accepted and the status 500 on the second page returns all of them: more
    than [TOTAL_COINS], which only the return after the last page cuts to. *)
Theorem abort_after_wide_page_exceeds_total :
  exists items,
    fetch_top_coins_with_price Source.PER_PAGE Source.TOTAL_COINS upper oversized_feed
      = Run (Done items) [GetPage 1; Sleep 20; GetPage 2] []
    ∧ length items = 2001
    ∧ Source.TOTAL_COINS < length items.
Proof.
  exists (replicate 2001 bitcoin_coin).
  split; [vm_compute; reflexivity|].
  rewrite length_replicate. split; [done|]. unfold Source.TOTAL_COINS. lia.
Qed.

(** C9: with the constants of [main.py], a body that is the JSON value
    [null] is not retried: the TypeError raised while the message of the
    ValueError is built leaves the collection, although the feed would have
    answered every page afterwards. *)
Theorem null_body_leaves_the_retry_loop :
  fetch_top_coins_with_price Source.PER_PAGE Source.TOTAL_COINS upper
    (Body JNull :: repeated_feed)
  = Run (Raised TypeError) [GetPage 1] repeated_feed.
Proof. vm_compute. reflexivity. Qed.

Lemma refresh_keeps_length_and_order_witness :
  exists prices,
    let r := refresh_prices 2 (map JStr three_ids) (batches_feed two_batches ++ []) in
    outcome_of r = Done prices
    ∧ unread r = []
    ∧ length prices = length three_ids
    ∧ (forall i id, three_ids !! i = Some id ->
         exists e, two_batches !! (i / 2) = Some e
                   ∧ prices !! i = Some [batch_price e id])
    ∧ (forall e code id, e ∈ two_batches -> b_final e = HttpError code ->
         batch_price e id = JStr "").
Proof.
  destruct (refresh_keeps_length_and_order 2 three_ids) as [_ H]; [lia|].
  apply (H two_batches []).
  - reflexivity.
  - repeat constructor; eexists _, _; split; reflexivity.
Defined.

Lemma initialized_sync_only_refreshes_witness :
  let r1 := sync_to_sheet Source.PER_PAGE Source.TOTAL_COINS upper shown
              no_faults three_coin_world one_batch_feed in
  let r2 := sync_to_sheet Source.PER_PAGE Source.TOTAL_COINS upper shown
              no_faults (sync_world r1) [HttpError 503] in
  Forall refresh_event (sync_trace r1)
  ∧ Forall refresh_event (sync_trace r2)
  ∧ frozen_file (sync_world r1) = frozen_file three_coin_world
  ∧ frozen_file (sync_world r2) = frozen_file three_coin_world
  ∧ exists s1 s2,
      sheet (sync_world r1) = Some s1
      ∧ sheet (sync_world r2) = Some s2
      ∧ (forall row col, col <> 3 ∨ row < 2 ->
           cells s1 row col = cells three_coin_sheet row col
           ∧ cells s2 row col = cells three_coin_sheet row col).
Proof.
  apply (initialized_sync_only_refreshes Source.PER_PAGE Source.TOTAL_COINS upper shown
           no_faults no_faults three_coin_world three_coin_sheet
           one_batch_feed [HttpError 503]); reflexivity.
Defined.

(** C2, as stated, fails: with the constants of [main.py], on a tab whose
    A1 holds "ID" a run whose read of A1 raises takes the marker for absent,
    runs the full collection and writes the whole table: the id in row 3 is
    no longer the one the tab held. *)
Lemma unreadable_header_rewrites_initialized_store :
  let r := sync_to_sheet Source.PER_PAGE Source.TOTAL_COINS upper shown
             unreadable_header three_coin_world repeated_feed in
  cells three_coin_sheet 1 1 = "ID"
  ∧ sync_outcome r = Done tt
  ∧ GetPage 1 ∈ sync_trace r
  ∧ last (sync_trace r) = Some (SaveFrozen (replicate 2000 (JStr "bitcoin")))
  ∧ ¬ Forall refresh_event (sync_trace r)
  ∧ exists s', sheet (sync_world r) = Some s'
      ∧ cells three_coin_sheet 3 1 = "ethereum"
      ∧ cells s' 3 1 = "bitcoin".
Proof.
  cbn zeta. split; [reflexivity|]. split; [vm_compute; reflexivity|].
  assert (Hget : GetPage 1
            ∈ sync_trace (sync_to_sheet Source.PER_PAGE Source.TOTAL_COINS upper shown
                            unreadable_header three_coin_world repeated_feed)).
  { apply list_elem_of_In. vm_compute. right. left. reflexivity. }
  split; [exact Hget|]. split; [vm_compute; reflexivity|]. split.
  - intros Hall. rewrite Forall_forall in Hall. exact (Hall _ Hget).
  - eexists. split; [reflexivity|]. split; vm_compute; reflexivity.
Qed.

Lemma refresh_run_writes_price_range_witness :
  let r := sync_to_sheet Source.PER_PAGE Source.TOTAL_COINS upper shown
             no_faults three_coin_world one_batch_feed in
  let ids := (frozen_ids_for Source.TOTAL_COINS three_coin_world three_coin_sheet).1 in
  let n := length ids in
  n <= Source.TOTAL_COINS
  ∧ (is_Some (load_frozen_coins Source.TOTAL_COINS three_coin_world) -> n = Source.TOTAL_COINS)
  ∧ Forall refresh_event (sync_trace r)
  ∧ (forall values rg, Update values rg ∈ sync_trace r ->
       rg = price_range n ∧ length values = n)
  ∧ (exists s', sheet (sync_world r) = Some s'
       ∧ (forall row col, col <> 3 ∨ row < 2 ∨ n + 1 < row ->
            cells s' row col = cells three_coin_sheet row col)
       ∧ (sync_outcome r = Done tt ->
          exists prices,
            outcome_of (refresh_prices Source.PER_PAGE ids one_batch_feed) = Done prices
            ∧ last (sync_trace r) = Some (Update prices (price_range n))
            ∧ (forall k v t, 2 <= k <= n + 1 -> prices !! (k - 2) = Some (v :: t) ->
                 cells s' k 3 = shown v (cells three_coin_sheet k 3)))).
Proof.
  apply (refresh_run_writes_price_range Source.PER_PAGE Source.TOTAL_COINS upper shown
           no_faults three_coin_world three_coin_sheet one_batch_feed).
  - unfold Source.PER_PAGE. lia.
  - reflexivity.
  - reflexivity.
  - reflexivity.
Defined.

(** C5, as stated, fails: with the constants of [main.py], a first load
    that a status 500 cuts short after one page writes the header and 250
    rows and saves 250 ids; the next run finds that cache too short, reads
    the 250 ids from column A and writes [C2:C251], not [C2:C2001]. *)
Lemma truncated_load_then_refresh_writes_short_range :
  let r1 := sync_to_sheet Source.PER_PAGE Source.TOTAL_COINS upper shown
              no_faults fresh_world truncated_feed in
  let r2 := sync_to_sheet Source.PER_PAGE Source.TOTAL_COINS upper shown
              no_faults (sync_world r1) one_batch_feed in
  sync_outcome r1 = Done tt
  ∧ SaveFrozen (replicate 250 (JStr "bitcoin")) ∈ sync_trace r1
  ∧ read_header no_faults (ensure_worksheet Source.TOTAL_COINS (sync_world r1)).1 = Some "ID"
  ∧ sync_outcome r2 = Done tt
  ∧ last (sync_trace r2)
    = Some (Update (replicate 250 [JNum (QArith_base.Qmake 65000 1)]) (A1Range 3 2 3 251))
  ∧ A1Range 3 2 3 251 <> price_range Source.TOTAL_COINS.
Proof.
  cbn zeta. split; [vm_compute; reflexivity|]. split.
  { apply list_elem_of_In. vm_compute. do 6 right. left. reflexivity. }
  split; [vm_compute; reflexivity|].
  split; [vm_compute; reflexivity|].
  split; [vm_compute; reflexivity|]. discriminate.
Qed.

Lemma empty_collection_aborts_without_writing_witness :
  let r := sync_to_sheet Source.PER_PAGE Source.TOTAL_COINS upper shown
             unreadable_header three_coin_world [HttpError 500] in
  sync_outcome r = Done tt
  ∧ Forall silent_event (sync_trace r)
  ∧ frozen_file (sync_world r) = frozen_file three_coin_world
  ∧ sheet (sync_world r) = Some (ensure_worksheet Source.TOTAL_COINS three_coin_world).1
  ∧ (is_Some (sheet three_coin_world) -> sync_world r = three_coin_world).
Proof.
  apply (empty_collection_aborts_without_writing Source.PER_PAGE Source.TOTAL_COINS
           upper shown unreadable_header three_coin_world [HttpError 500]).
  - vm_compute. discriminate.
  - vm_compute. reflexivity.
Defined.

(** C3, as stated, fails: with the constants of [main.py], a first run on a
    spreadsheet that has no tab yet, whose collection is refused at once,
    leaves the spreadsheet with a new, empty tab. *)
Lemma first_run_without_tab_creates_it :
  let r := sync_to_sheet Source.PER_PAGE Source.TOTAL_COINS upper shown
             no_faults fresh_world [HttpError 500] in
  outcome_of (fetch_top_coins_with_price Source.PER_PAGE Source.TOTAL_COINS upper
                [HttpError 500]) = Done []
  ∧ sync_outcome r = Done tt
  ∧ sync_trace r = [AddWorksheet 2001 3; ReadA1; GetPage 1]
  ∧ sync_world r <> fresh_world.
Proof.
  cbn zeta. split; [vm_compute; reflexivity|]. split; [vm_compute; reflexivity|].
  split; [vm_compute; reflexivity|].
  intros H. apply (f_equal sheet) in H. vm_compute in H. discriminate.
Qed.


(** ** Runs for the further properties *)

Lemma saved_ids_load_back_witness :
  let w' := save_frozen_coins no_faults (map JStr three_ids) fresh_world in
  sheet w' = sheet fresh_world
  ∧ (3 <= length (map JStr three_ids) ->
     load_frozen_coins 3 w' = Some (take 3 (map JStr three_ids)))
  ∧ (length (map JStr three_ids) = 3 -> load_frozen_coins 3 w' = Some (map JStr three_ids))
  ∧ (length (map JStr three_ids) < 3 -> load_frozen_coins 3 w' = None).
Proof.
  apply (saved_ids_load_back 3 no_faults (map JStr three_ids) fresh_world).
  reflexivity.
Defined.

Lemma retries_do_not_change_the_collection_witness :
  outcome_of (fetch_top_coins_with_price 2 4 upper (pages_feed two_pages ++ []))
    = Done (take 4 four_coins)
  ∧ outcome_of (fetch_top_coins_with_price 2 4 upper (pages_feed two_prompt_pages ++ []))
    = Done (take 4 four_coins).
Proof.
  apply (retries_do_not_change_the_collection 2 4 upper two_pages two_prompt_pages
           four_coins [] []).
  - reflexivity.
  - reflexivity.
  - repeat constructor.
  - repeat constructor.
  - reflexivity.
Defined.

Lemma collector_requests_known_pages_witness :
  (exists page, GetPage 2 = GetPage page ∧ 1 <= page <= PAGES 2 4)
  ∨ GetPage 2 = Sleep 20 ∨ GetPage 2 = Sleep 60.
Proof.
  apply (collector_requests_known_pages 2 4 upper (pages_feed two_pages) (GetPage 2)).
  apply list_elem_of_In. vm_compute. do 4 right. left. reflexivity.
Defined.

Lemma small_total_collects_nothing_witness :
  fetch_top_coins_with_price 5 3 upper wide_feed = Run (Done []) [] wide_feed
  ∧ (forall f w, read_header f (ensure_worksheet 3 w).1 <> Some "ID" ->
       let r := sync_to_sheet 5 3 upper shown f w wide_feed in
       sync_outcome r = Done tt
       ∧ sync_trace r = (ensure_worksheet 3 w).2 ++ [ReadA1]
       ∧ sync_unread r = wide_feed
       ∧ frozen_file (sync_world r) = frozen_file w).
Proof.
  apply (small_total_collects_nothing 5 3 upper shown wide_feed). lia.
Defined.

Lemma malformed_record_raises_witness :
  let r := fetch_top_coins_with_price 2 4 upper
             (pages_feed [PageScript [] [bitcoin; ether]]
                ++ [] ++ Body (JList [tether; nameless]) :: []) in
  (exists e', outcome_of r = Raised e') ∧ unread r = [].
Proof.
  apply (malformed_record_raises 2 4 upper [PageScript [] [bitcoin; ether]]
           (take 2 four_coins) [] [tether; nameless] nameless AttributeError []).
  - repeat constructor.
  - reflexivity.
  - vm_compute. lia.
  - constructor.
  - simpl. lia.
  - apply list_elem_of_In. simpl. right. left. reflexivity.
  - reflexivity.
Defined.

Lemma fetch_fitting_pages_bound_witness :
  length (take 4 four_coins) <= 4.
Proof.
  apply (fetch_fitting_pages_bound 2 4 upper (pages_feed two_pages) (take 4 four_coins)).
  - intros l H. apply list_elem_of_In in H. vm_compute in H.
    destruct H as [H|[H|[H|[]]]]; try discriminate H;
      injection H as <-; simpl; lia.
  - reflexivity.
Defined.

Lemma written_ids_read_back_witness :
  head (col_values 1 loaded_sheet) = Some "ID"
  ∧ map JStr (take 4 (drop 1 (col_values 1 loaded_sheet))) = take 4 (map coin_id four_coins).
Proof.
  apply (written_ids_read_back 4 shown (ensure_worksheet 4 fresh_world).1 four_coins
           loaded_sheet).
  - reflexivity.
  - repeat constructor; eexists; (split; [reflexivity|discriminate]).
  - reflexivity.
  - reflexivity.
Defined.

Lemma first_load_initializes_witness :
  let r1 := sync_to_sheet 2 4 upper shown no_faults fresh_world (pages_feed two_pages) in
  let r2 := sync_to_sheet 2 4 upper shown no_faults (sync_world r1) one_batch_feed in
  sync_outcome r1 = Done tt
  ∧ sheet (sync_world r1) = Some loaded_sheet
  ∧ read_header no_faults loaded_sheet = Some "ID"
  ∧ Forall refresh_event (sync_trace r2).
Proof.
  apply (first_load_initializes 2 4 upper shown no_faults no_faults fresh_world
           (pages_feed two_pages) one_batch_feed four_coins loaded_sheet).
  - reflexivity.
  - vm_compute. discriminate.
  - reflexivity.
  - discriminate.
  - reflexivity.
  - reflexivity.
Defined.

Lemma unfinished_sync_changes_nothing_witness :
  sync_world (sync_to_sheet Source.PER_PAGE Source.TOTAL_COINS upper shown
                no_faults three_coin_world [HttpError 429])
  = World (Some (ensure_worksheet Source.TOTAL_COINS three_coin_world).1)
      (frozen_file three_coin_world)
  ∧ (is_Some (sheet three_coin_world) ->
     sync_world (sync_to_sheet Source.PER_PAGE Source.TOTAL_COINS upper shown
                   no_faults three_coin_world [HttpError 429])
     = three_coin_world).
Proof.
  apply (unfinished_sync_changes_nothing Source.PER_PAGE Source.TOTAL_COINS upper shown
           no_faults three_coin_world [HttpError 429]).
  vm_compute. discriminate.
Defined.

Lemma cached_ids_follow_rows_witness :
  let r := sync_to_sheet 2 4 upper shown no_faults fresh_world (pages_feed two_pages) in
  frozen_file (sync_world r) = Some (Some (JList (map coin_id four_coins)))
  ∧ (frozen_ids_for 4 (sync_world r) loaded_sheet).1 = take 4 (map coin_id four_coins)
  ∧ (forall k c, four_coins !! k = Some c ->
       cells loaded_sheet (k + 2) 1
       = shown (coin_id c) (cells (ensure_worksheet 4 fresh_world).1 (k + 2) 1)).
Proof.
  apply (cached_ids_follow_rows 2 4 upper shown no_faults fresh_world
           (pages_feed two_pages) four_coins loaded_sheet).
  - lia.
  - reflexivity.
  - vm_compute. discriminate.
  - reflexivity.
  - simpl. lia.
  - reflexivity.
Defined.

Lemma batches_partition_ids_witness :
  concat (map (fun i => take 2 (drop i (map JStr three_ids)))
            (batch_starts 2 (length (map JStr three_ids))))
  = map JStr three_ids
  ∧ Forall (fun i => 0 < length (take 2 (drop i (map JStr three_ids))) <= 2)
      (batch_starts 2 (length (map JStr three_ids))).
Proof.
  apply (batches_partition_ids 2 (map JStr three_ids)). lia.
Defined.

Lemma non_string_id_stops_refresh_witness :
  let r := update_prices_only 2 shown three_coin_world three_coin_sheet
             [JStr "bitcoin"; JNull] one_batch_feed in
  sync_outcome r <> Done tt
  ∧ sync_world r = three_coin_world
  ∧ (forall values rg, Update values rg ∉ sync_trace r).
Proof.
  apply (non_string_id_stops_refresh 2 shown three_coin_world three_coin_sheet
           [JStr "bitcoin"; JNull] one_batch_feed JNull).
  - lia.
  - apply list_elem_of_In. simpl. right. left. reflexivity.
  - discriminate.
Defined.

Lemma unusable_body_raises_in_refresh_witness :
  let r := update_prices_only 2 shown three_coin_world three_coin_sheet
             (map JStr three_ids)
             ([HttpError 429] ++ Body (JDict [("error", JStr "busy")]) :: []) in
  sync_outcome r = Raised TypeError
  ∧ sync_world r = three_coin_world
  ∧ sync_unread r = []
  ∧ (is_Some (py_len (JDict [("error", JStr "busy")])) ->
     page_retried 2 (Body (JDict [("error", JStr "busy")])) = true).
Proof.
  apply (unusable_body_raises_in_refresh 2 shown three_coin_world three_coin_sheet
           three_ids [HttpError 429] (JDict [("error", JStr "busy")]) []).
  - lia.
  - discriminate.
  - repeat constructor.
  - simpl. discriminate.
Defined.

Lemma price_map_prefers_last_witness :
  (forall s, (forall c, c ∈ repeating_answer -> py_getitem c "id" <> Ok (JStr s)) ->
     repeating_map !! s = None ∧ price_get repeating_map (JStr s) = JStr "")
  ∧ (forall cs1 c cs2 s p,
       repeating_answer = cs1 ++ c :: cs2 ->
       py_getitem c "id" = Ok (JStr s) ->
       py_getitem c "current_price" = Ok p ->
       (forall c', c' ∈ cs2 -> py_getitem c' "id" <> Ok (JStr s)) ->
       repeating_map !! s = Some p ∧ price_get repeating_map (JStr s) = p).
Proof.
  apply (price_map_prefers_last repeating_answer repeating_map).
  vm_compute. reflexivity.
Defined.

Lemma header_only_tab_refreshes_nothing_witness :
  let r := sync_to_sheet Source.PER_PAGE Source.TOTAL_COINS upper shown
             no_faults header_world one_batch_feed in
  sync_trace r = [ReadA1; LoadFrozen; ColValues 1; Update [] (A1Range 3 2 3 1)]
  ∧ sync_unread r = one_batch_feed
  ∧ frozen_file (sync_world r) = frozen_file header_world
  ∧ exists s', sheet (sync_world r) = Some s'
      ∧ forall row col, cells s' row col = cells header_sheet row col.
Proof.
  apply (header_only_tab_refreshes_nothing Source.PER_PAGE Source.TOTAL_COINS upper shown
           no_faults header_world header_sheet one_batch_feed); reflexivity.
Defined.

Lemma retries_do_not_change_the_prices_witness :
  exists prices,
    outcome_of (refresh_prices 2 (map JStr three_ids) (batches_feed two_batches ++ []))
      = Done prices
    ∧ outcome_of (refresh_prices 2 (map JStr three_ids)
                    (batches_feed two_prompt_batches ++ []))
      = Done prices.
Proof.
  apply (retries_do_not_change_the_prices 2 three_ids two_batches two_prompt_batches [] []).
  - reflexivity.
  - reflexivity.
  - repeat constructor; eexists _, _; split; reflexivity.
  - repeat constructor; eexists _, _; split; reflexivity.
Defined.

Lemma answer_order_does_not_matter_witness :
  exists m',
    price_map (JList [ether; bitcoin]) = Ok m'
    ∧ forall s, price_get m' (JStr s) = price_get pair_map (JStr s).
Proof.
  apply (answer_order_does_not_matter [bitcoin; ether] [ether; bitcoin] pair_map).
  - apply perm_swap.
  - vm_compute. apply NoDup_cons. split; [|apply NoDup_singleton].
    intros H%list_elem_of_singleton. discriminate H.
  - vm_compute. reflexivity.
Defined.

Lemma failed_save_keeps_the_table_witness :
  let r := sync_to_sheet 2 4 upper shown broken_dump fresh_world (pages_feed two_pages) in
  sync_outcome r = Done tt
  ∧ sheet (sync_world r) = Some loaded_sheet
  ∧ (save_truncates broken_dump = false ->
     frozen_file (sync_world r) = frozen_file fresh_world)
  ∧ (save_truncates broken_dump = true -> load_frozen_coins 4 (sync_world r) = None)
  ∧ (forall ids, load_frozen_coins 4 (sync_world r) = Some ids ->
       load_frozen_coins 4 fresh_world = Some ids).
Proof.
  apply (failed_save_keeps_the_table 2 4 upper shown broken_dump fresh_world
           (pages_feed two_pages) four_coins loaded_sheet).
  - reflexivity.
  - vm_compute. discriminate.
  - reflexivity.
  - discriminate.
  - reflexivity.
Defined.

Lemma collection_follows_the_records_witness :
  exists items,
    outcome_of (fetch_top_coins_with_price 2 4 upper (pages_feed two_pages ++ [])) = Done items
    ∧ Forall2 (built_from upper) (take 4 (pages_records two_pages)) items.
Proof.
  apply (collection_follows_the_records 2 4 upper two_pages four_coins []).
  - reflexivity.
  - repeat constructor.
  - reflexivity.
Defined.

Lemma retry_loops_have_no_cap_witness :
  (2 <= 4 ->
   Forall (fun r => page_retried 2 r = true) [HttpError 429; RequestFailed] ->
   fetch_top_coins_with_price 2 4 upper [HttpError 429; RequestFailed]
   = Run Waiting (backoff (GetPage 1) (length [HttpError 429; RequestFailed])) [])
  ∧ (three_ids <> [] ->
     Forall (fun r => batch_retried r = true) [HttpError 429; RequestFailed] ->
     refresh_prices 2 (map JStr three_ids) [HttpError 429; RequestFailed]
     = Run Waiting
         (backoff (GetIds (String.concat "," (take 2 three_ids)))
            (length [HttpError 429; RequestFailed])) []).
Proof.
  apply (retry_loops_have_no_cap 2 4 upper three_ids [HttpError 429; RequestFailed]).
  lia.
Defined.
